(** * DocuScan web client: session handling and clipboard export

    A shallow embedding of [src/static/script.js] (the current script, the
    second one in that file, which declares [processedImageBase64]).  The
    page's global variables and the parts of the DOM that the handlers show
    and hide form an explicit state; every callback of the script (file
    reader, ajax, timers) is an event of a step function.  Browser services
    (FileReader, fetch, canvas, the clipboard, jQuery's ajax) are modelled by
    their contract or taken as parameters of a section. *)

From Stdlib Require Import String Ascii List NArith Lia Bool DecimalString.
Import ListNotations.
Open Scope string_scope.

(** ** The JavaScript string and array operations the script relies on *)

Module JS.

(** [s.startsWith(p)] *)
Definition startsWith (s p : string) : bool := prefix p s.

(** [s.includes(p)], also [s.indexOf(p) !== -1] *)
Definition includes (s p : string) : bool :=
  match index 0 p s with Some _ => true | None => false end.

(** [s.slice(0, n)] for [0 <= n] *)
Definition slice0 (n : nat) (s : string) : string := substring 0 n s.

(** [s.replace(/[:.]/g, '-')] *)
Fixpoint replace_colon_dot (s : string) : string :=
  match s with
  | EmptyString => EmptyString
  | String c r =>
      String (if (Ascii.eqb c ":" || Ascii.eqb c ".")%bool then "-"%char else c)
             (replace_colon_dot r)
  end.

(** [s.split(sep)] for a one-character separator: never the empty list *)
Fixpoint split (sep : ascii) (s : string) : list string :=
  match s with
  | EmptyString => [EmptyString]
  | String c r =>
      if Ascii.eqb c sep then EmptyString :: split sep r
      else match split sep r with
           | [] => [String c EmptyString]
           | h :: t => String c h :: t
           end
  end.

(** A string is falsy exactly when it is empty. *)
Definition truthy (s : string) : bool := negb (s =? "").

(** [a || b] on a possibly undefined string *)
Definition or_else (a : option string) (b : string) : string :=
  match a with
  | Some s => if truthy s then s else b
  | None => b
  end.

(** Decimal rendering of a non-negative integer. *)
Definition dec (n : N) : string := NilEmpty.string_of_uint (N.to_uint n).

(** The one-character string made of a double quote. *)
Definition dquote : string := String (ascii_of_nat 34) EmptyString.

(** String concatenation with an array element that may be out of range:
    [undefined] is rendered as the text ["undefined"]. *)
Definition show_elem (o : option string) : string :=
  match o with Some s => s | None => "undefined" end.

End JS.

(** ** formatFileSize *)

Module Format.

Definition k : N := 1024.
Definition sizes : list string := ["B"; "KB"; "MB"; "GB"].

(** [Math.floor(Math.log(bytes) / Math.log(k))] for [bytes >= 1]: the
    integer logarithm in base 1024.  The floating-point quotient is taken
    as exact.  At 1024^2 and 1024^4 it is: [Math.log(2^20)] and
    [Math.log(2^40)] are [Math.log(2^10)] scaled by 2 and by 4, and scaling
    by a power of two commutes with rounding. *)
Definition unit_index (bytes : N) : nat := N.to_nat (N.log2 bytes / 10).

(** [(bytes / Math.pow(k, i)).toFixed(1)], as a count of tenths.  The
    division by a power of two is exact on doubles, and [toFixed] rounds the
    exact value to the nearest tenth, the larger one on a tie. *)
Definition tenths (bytes : N) (i : nat) : N :=
  (20 * bytes + k ^ N.of_nat i) / (2 * k ^ N.of_nat i).

(** [parseFloat(x.toFixed(1))] converted back to text by [+ ' ']: a
    fractional digit 0 is not printed. *)
Definition number_text (t : N) : string :=
  if (t mod 10 =? 0)%N then JS.dec (t / 10)
  else JS.dec (t / 10) ++ "." ++ JS.dec (t mod 10).

(** [sizes[i]] *)
Definition unit_of (bytes : N) : option string :=
  nth_error sizes (unit_index bytes).

Definition formatFileSize (bytes : N) : string :=
  if (bytes =? 0)%N then "0 B"
  else number_text (tenths bytes (unit_index bytes))
       ++ " " ++ JS.show_elem (unit_of bytes).

End Format.

(** ** Browser values *)

Module Browser.

(** A [Blob]: its declared MIME type and its content, kept as the base64
    text that a data URL carries. *)
Record Blob := { btype : string; bpayload : string }.

(** A [File] is a blob with a name; [fsize] is the declared byte length. *)
Record File := {
  fname : string;
  ftype : string;
  fsize : N;
  fpayload : string
}.

(** The result of [FileReader.readAsDataURL]. *)
Definition dataURL (type payload : string) : string :=
  "data:" ++ type ++ ";base64," ++ payload.

Definition fileDataURL (f : File) : string := dataURL (ftype f) (fpayload f).
Definition blobDataURL (b : Blob) : string := dataURL (btype b) (bpayload b).

(** A thrown or rejected [Error] object. *)
Record Error := { ename : string; emessage : string }.

(** An entry of [clipboardData.items]; [getAsFile()] is [null] for an item
    that is not a file. *)
Record Item := { itype : string; getAsFile : option File }.

(** The [xhr] handed to jQuery's error callback.  [responseDetail] stands
    for [JSON.parse(xhr.responseText).detail]: [None] when parsing or the
    property access throws, [Some None] when the property is missing, and
    the string the service put there otherwise. *)
Record Xhr := {
  xstatus : N;
  responseDetail : option (option string)
}.

(** The settings object given to [$.ajax]. *)
Record Request := {
  url : string;
  method : string;
  contentType : string;
  img : string;
  timeout : N
}.

End Browser.

(** ** The page: global variables, DOM, pending callbacks *)

Module Session.
Import Browser.

(** The elements whose visibility the handlers toggle with
    [.show()] and [.hide()]. *)
Inductive Elem :=
| PasteArea
| OriginalImageContainer
| NoImagePlaceholder
| ProcessingContainer
| ProcessedImageContainer
| ErrorAlert
| SuccessAlert.

Definition Elem_eqb (a b : Elem) : bool :=
  match a, b with
  | PasteArea, PasteArea
  | OriginalImageContainer, OriginalImageContainer
  | NoImagePlaceholder, NoImagePlaceholder
  | ProcessingContainer, ProcessingContainer
  | ProcessedImageContainer, ProcessedImageContainer
  | ErrorAlert, ErrorAlert
  | SuccessAlert, SuccessAlert => true
  | _, _ => false
  end.

(** The texts and attributes the handlers write. *)
Inductive Slot :=
| ErrorMessage
| SuccessMessage
| ImageInfo
| OriginalImageSrc
| ProcessedImageSrc
| ProcessingStep
| ProcessingProgress
| FileInputVal.

Definition Slot_eqb (a b : Slot) : bool :=
  match a, b with
  | ErrorMessage, ErrorMessage
  | SuccessMessage, SuccessMessage
  | ImageInfo, ImageInfo
  | OriginalImageSrc, OriginalImageSrc
  | ProcessedImageSrc, ProcessedImageSrc
  | ProcessingStep, ProcessingStep
  | ProcessingProgress, ProcessingProgress
  | FileInputVal, FileInputVal => true
  | _, _ => false
  end.

(** A toast: message and type. *)
Definition Toast : Type := string * string.

Record State := {
  (* the script's global variables; [None] is [null] *)
  currentImageData : option string;
  processedImageBlob : option Blob;
  processedImageBase64 : option string;
  (* the DOM *)
  visible : Elem -> bool;
  text : Slot -> string;
  loading : bool;                 (* class loading-state of #pasteArea *)
  toasts : list Toast;            (* every toast shown so far *)
  (* callbacks registered and not yet run *)
  pendingReads : list File;       (* readers started by handleImageFile *)
  requests : list Request;        (* every $.ajax call issued so far *)
  inflight : list nat;            (* positions in [requests] not yet resolved *)
  pendingBlobReads : list Blob;   (* readers started by the success callback *)
  pendingReveal : nat;            (* setTimeout(800) + fadeOut(300) callbacks *)
  pendingSuccessMsg : nat         (* setTimeout(300) of the success message *)
}.

(** Field updates. *)
Definition set_currentImageData v (s : State) : State :=
  {| currentImageData := v;
     processedImageBlob := processedImageBlob s;
     processedImageBase64 := processedImageBase64 s;
     visible := visible s; text := text s; loading := loading s;
     toasts := toasts s; pendingReads := pendingReads s;
     requests := requests s; inflight := inflight s;
     pendingBlobReads := pendingBlobReads s;
     pendingReveal := pendingReveal s;
     pendingSuccessMsg := pendingSuccessMsg s |}.

Definition set_processedImageBlob v (s : State) : State :=
  {| currentImageData := currentImageData s;
     processedImageBlob := v;
     processedImageBase64 := processedImageBase64 s;
     visible := visible s; text := text s; loading := loading s;
     toasts := toasts s; pendingReads := pendingReads s;
     requests := requests s; inflight := inflight s;
     pendingBlobReads := pendingBlobReads s;
     pendingReveal := pendingReveal s;
     pendingSuccessMsg := pendingSuccessMsg s |}.

Definition set_processedImageBase64 v (s : State) : State :=
  {| currentImageData := currentImageData s;
     processedImageBlob := processedImageBlob s;
     processedImageBase64 := v;
     visible := visible s; text := text s; loading := loading s;
     toasts := toasts s; pendingReads := pendingReads s;
     requests := requests s; inflight := inflight s;
     pendingBlobReads := pendingBlobReads s;
     pendingReveal := pendingReveal s;
     pendingSuccessMsg := pendingSuccessMsg s |}.

Definition set_visible v (s : State) : State :=
  {| currentImageData := currentImageData s;
     processedImageBlob := processedImageBlob s;
     processedImageBase64 := processedImageBase64 s;
     visible := v; text := text s; loading := loading s;
     toasts := toasts s; pendingReads := pendingReads s;
     requests := requests s; inflight := inflight s;
     pendingBlobReads := pendingBlobReads s;
     pendingReveal := pendingReveal s;
     pendingSuccessMsg := pendingSuccessMsg s |}.

Definition set_text v (s : State) : State :=
  {| currentImageData := currentImageData s;
     processedImageBlob := processedImageBlob s;
     processedImageBase64 := processedImageBase64 s;
     visible := visible s; text := v; loading := loading s;
     toasts := toasts s; pendingReads := pendingReads s;
     requests := requests s; inflight := inflight s;
     pendingBlobReads := pendingBlobReads s;
     pendingReveal := pendingReveal s;
     pendingSuccessMsg := pendingSuccessMsg s |}.

Definition set_loading v (s : State) : State :=
  {| currentImageData := currentImageData s;
     processedImageBlob := processedImageBlob s;
     processedImageBase64 := processedImageBase64 s;
     visible := visible s; text := text s; loading := v;
     toasts := toasts s; pendingReads := pendingReads s;
     requests := requests s; inflight := inflight s;
     pendingBlobReads := pendingBlobReads s;
     pendingReveal := pendingReveal s;
     pendingSuccessMsg := pendingSuccessMsg s |}.

Definition set_toasts v (s : State) : State :=
  {| currentImageData := currentImageData s;
     processedImageBlob := processedImageBlob s;
     processedImageBase64 := processedImageBase64 s;
     visible := visible s; text := text s; loading := loading s;
     toasts := v; pendingReads := pendingReads s;
     requests := requests s; inflight := inflight s;
     pendingBlobReads := pendingBlobReads s;
     pendingReveal := pendingReveal s;
     pendingSuccessMsg := pendingSuccessMsg s |}.

Definition set_pendingReads v (s : State) : State :=
  {| currentImageData := currentImageData s;
     processedImageBlob := processedImageBlob s;
     processedImageBase64 := processedImageBase64 s;
     visible := visible s; text := text s; loading := loading s;
     toasts := toasts s; pendingReads := v;
     requests := requests s; inflight := inflight s;
     pendingBlobReads := pendingBlobReads s;
     pendingReveal := pendingReveal s;
     pendingSuccessMsg := pendingSuccessMsg s |}.

(** [$.ajax(settings)]: the call is recorded and becomes outstanding. *)
Definition ajax (r : Request) (s : State) : State :=
  {| currentImageData := currentImageData s;
     processedImageBlob := processedImageBlob s;
     processedImageBase64 := processedImageBase64 s;
     visible := visible s; text := text s; loading := loading s;
     toasts := toasts s; pendingReads := pendingReads s;
     requests := requests s ++ [r];
     inflight := inflight s ++ [List.length (requests s)];
     pendingBlobReads := pendingBlobReads s;
     pendingReveal := pendingReveal s;
     pendingSuccessMsg := pendingSuccessMsg s |}.

Definition set_inflight v (s : State) : State :=
  {| currentImageData := currentImageData s;
     processedImageBlob := processedImageBlob s;
     processedImageBase64 := processedImageBase64 s;
     visible := visible s; text := text s; loading := loading s;
     toasts := toasts s; pendingReads := pendingReads s;
     requests := requests s; inflight := v;
     pendingBlobReads := pendingBlobReads s;
     pendingReveal := pendingReveal s;
     pendingSuccessMsg := pendingSuccessMsg s |}.

Definition set_pendingBlobReads v (s : State) : State :=
  {| currentImageData := currentImageData s;
     processedImageBlob := processedImageBlob s;
     processedImageBase64 := processedImageBase64 s;
     visible := visible s; text := text s; loading := loading s;
     toasts := toasts s; pendingReads := pendingReads s;
     requests := requests s; inflight := inflight s;
     pendingBlobReads := v;
     pendingReveal := pendingReveal s;
     pendingSuccessMsg := pendingSuccessMsg s |}.

Definition set_pendingReveal v (s : State) : State :=
  {| currentImageData := currentImageData s;
     processedImageBlob := processedImageBlob s;
     processedImageBase64 := processedImageBase64 s;
     visible := visible s; text := text s; loading := loading s;
     toasts := toasts s; pendingReads := pendingReads s;
     requests := requests s; inflight := inflight s;
     pendingBlobReads := pendingBlobReads s;
     pendingReveal := v;
     pendingSuccessMsg := pendingSuccessMsg s |}.

Definition set_pendingSuccessMsg v (s : State) : State :=
  {| currentImageData := currentImageData s;
     processedImageBlob := processedImageBlob s;
     processedImageBase64 := processedImageBase64 s;
     visible := visible s; text := text s; loading := loading s;
     toasts := toasts s; pendingReads := pendingReads s;
     requests := requests s; inflight := inflight s;
     pendingBlobReads := pendingBlobReads s;
     pendingReveal := pendingReveal s;
     pendingSuccessMsg := v |}.

(** Statements of a handler run left to right. *)
Notation "s ;> f" := (f s) (at level 55, left associativity, only parsing).

(** [$('#e').show()], [$('#e').hide()], [$('#x').text(t)] *)
Definition show (e : Elem) (s : State) : State :=
  set_visible (fun x => if Elem_eqb x e then true else visible s x) s.
Definition hide (e : Elem) (s : State) : State :=
  set_visible (fun x => if Elem_eqb x e then false else visible s x) s.
Definition write (k : Slot) (t : string) (s : State) : State :=
  set_text (fun x => if Slot_eqb x k then t else text s x) s.

(** *** Notifications *)

(** [showToast(message, type)]: the toast is appended to the page. *)
Definition showToast (message type : string) (s : State) : State :=
  set_toasts (toasts s ++ [(message, type)]) s.

(** [showError]: the scrolling and the fade-out eight seconds later are
    rendering and are left out. *)
Definition showError (message : string) (s : State) : State :=
  s ;> write ErrorMessage message ;> show ErrorAlert.

Definition showSuccess (message : string) (s : State) : State :=
  s ;> write SuccessMessage message ;> show SuccessAlert.

(** [$('#errorAlert, #successAlert').hide()] *)
Definition hideAlerts (s : State) : State :=
  s ;> hide ErrorAlert ;> hide SuccessAlert.

Definition showImageLoadingState (s : State) : State := set_loading true s.
Definition hideImageLoadingState (s : State) : State := set_loading false s.

(** *** Acquisition *)

Definition maxSize : N := 10 * 1024 * 1024.

Definition msgWrongType : string := "请选择有效的图片文件".
Definition msgTooLarge (size : N) : string :=
  "图片文件过大：" ++ Format.formatFileSize size ++ "，请选择小于10MB的图片".
Definition msgReadError : string := "读取图片文件时发生错误，请重试".

(** The synchronous part of [handleImageFile]: both checks, then
    [reader.readAsDataURL(file)], whose callbacks run later. *)
Definition handleImageFile (file : File) (s : State) : State :=
  if negb (JS.startsWith (ftype file) "image/") then
    showError msgWrongType s
  else if (maxSize <? fsize file)%N then
    showError (msgTooLarge (fsize file)) s
  else
    s ;> showImageLoadingState
      ;> set_pendingReads (pendingReads s ++ [file]).

(** [getImageFormat] *)
Definition getImageFormat (dataUrl : string) : string :=
  if JS.startsWith dataUrl "data:image/jpeg" then "JPEG"
  else if JS.startsWith dataUrl "data:image/png" then "PNG"
  else if JS.startsWith dataUrl "data:image/gif" then "GIF"
  else if JS.startsWith dataUrl "data:image/webp" then "WEBP"
  else if JS.startsWith dataUrl "data:image/svg" then "SVG"
  else if JS.startsWith dataUrl "data:image/bmp" then "BMP"
  else "Unknown".

Definition showOriginalImage (file : File) (s : State) : State :=
  s ;> hide PasteArea
    ;> show OriginalImageContainer
    ;> write OriginalImageSrc
         (match currentImageData s with Some d => d | None => "" end)
    ;> write ImageInfo
         (fname file ++ " • " ++ Format.formatFileSize (fsize file)
          ++ " • " ++ getImageFormat (ftype file))
    ;> hideImageLoadingState.

(** *** Processing *)

Definition msgNoImage : string := "请先选择或粘贴图片".

(** [showProcessingState]; the interval of [updateProcessingProgress] only
    rewrites the progress texts and is left out. *)
Definition showProcessingState (s : State) : State :=
  s ;> write ProcessingProgress "0%"
    ;> write ProcessingStep "正在初始化..."
    ;> hideAlerts.

Definition hideProcessingState (s : State) : State := hideImageLoadingState s.

Definition processRequest (data : string) : Request :=
  {| url := "/process-image";
     method := "POST";
     contentType := "application/json";
     img := data;
     timeout := 60000 |}.

Definition processImage (s : State) : State :=
  match currentImageData s with
  | Some data =>
      if JS.truthy data then
        s ;> hide NoImagePlaceholder
          ;> show ProcessingContainer
          ;> showProcessingState
          ;> ajax (processRequest data)
      else showError msgNoImage s
  | None => showError msgNoImage s
  end.

(** [reader.onload] of [handleImageFile] *)
Definition onFileLoaded (file : File) (s : State) : State :=
  let s1 := set_currentImageData (Some (fileDataURL file)) s in
  s1 ;> hideAlerts ;> showOriginalImage file ;> processImage.

(** [reader.onerror] of [handleImageFile] *)
Definition onFileError (s : State) : State :=
  s ;> showError msgReadError ;> hideImageLoadingState.

(** The [success] callback of the ajax call, followed by [complete]. *)
Definition onAjaxSuccess (data : Blob) (s : State) : State :=
  s ;> set_processedImageBlob (Some data)
    ;> set_pendingBlobReads (pendingBlobReads s ++ [data])
    ;> hideProcessingState.

(** [reader.onload] inside the success callback *)
Definition onBlobLoaded (data : Blob) (s : State) : State :=
  s ;> set_processedImageBase64 (Some (blobDataURL data))
    ;> write ProcessingProgress "100%"
    ;> write ProcessingStep "处理完成！"
    ;> set_pendingReveal (S (pendingReveal s)).

(** The callback of [fadeOut(300)] that the 800 ms timer starts; it reads
    the global [processedImageBase64] when it runs.  The badge and the
    vibration of [showProcessingSuccess] are left out. *)
Definition onReveal (s : State) : State :=
  s ;> hide ProcessingContainer
    ;> write ProcessedImageSrc
         (match processedImageBase64 s with Some d => d | None => "" end)
    ;> show ProcessedImageContainer
    ;> set_pendingSuccessMsg (S (pendingSuccessMsg s)).

Definition msgDone : string := "🎉 图片处理完成！".

Definition msgDefault : string := "处理图片时发生错误".
Definition msgTimeout : string := "⏰ 请求超时，图片可能过大或网络较慢，请重试".
Definition msgPayload : string := "📏 图片文件太大，请选择较小的图片（建议小于5MB）".
Definition msgUnsupported : string := "❌ 图片格式不支持或文件损坏".
Definition msgNetwork : string := "🌐 网络连接错误，请检查网络后重试".
Definition msgServer : string := "🔧 服务器暂时不可用，请稍后重试".

Definition processingErrorMessage (xhr : Xhr) (status : string) : string :=
  if status =? "timeout" then msgTimeout
  else if (xstatus xhr =? 413)%N then msgPayload
  else if (xstatus xhr =? 400)%N then
    match responseDetail xhr with
    | Some detail => JS.or_else detail msgDefault
    | None => msgUnsupported
    end
  else if (xstatus xhr =? 0)%N then msgNetwork
  else if (500 <=? xstatus xhr)%N then msgServer
  else msgDefault.

Definition handleProcessingError (xhr : Xhr) (status : string) (s : State)
  : State :=
  showError (processingErrorMessage xhr status) s.

(** The [error] callback of the ajax call, followed by [complete]. *)
Definition onAjaxError (xhr : Xhr) (status : string) (s : State) : State :=
  s ;> hide ProcessingContainer
    ;> hide ProcessedImageContainer
    ;> show NoImagePlaceholder
    ;> handleProcessingError xhr status
    ;> hideProcessingState.

(** *** Reset *)

(** [resetTool]; the toast of the 500 ms timer is shown at once. *)
Definition resetTool (s : State) : State :=
  s ;> set_currentImageData None
    ;> set_processedImageBlob None
    ;> set_processedImageBase64 None
    ;> show PasteArea
    ;> hide OriginalImageContainer
    ;> hide ProcessingContainer
    ;> hide ProcessedImageContainer
    ;> show NoImagePlaceholder
    ;> write ProcessingProgress "0%"
    ;> write ProcessingStep "正在初始化..."
    ;> write FileInputVal ""
    ;> hideAlerts
    ;> hideImageLoadingState
    ;> showToast "🔄 已重置，选择新图片即可自动处理" "info".

(** *** Input events of [initializeEventListeners] *)

(** The [paste] handler: the first item whose type contains ["image"] is
    taken.  [handleImageFile(null)] throws on [file.type]; the handler
    stops there and the page's [error] listener shows its toast. *)
Fixpoint onPaste (items : list Item) (s : State) : State :=
  match items with
  | [] => s
  | item :: rest =>
      if JS.includes (itype item) "image" then
        match getAsFile item with
        | Some file =>
            s ;> handleImageFile file
              ;> showToast "已从剪贴板粘贴图片" "success"
        | None => showToast "页面出现错误，请刷新重试" "error" s
        end
      else onPaste rest s
  end.

(** The [change] handler of the file input *)
Definition onFileChange (files : list File) (s : State) : State :=
  match files with
  | file :: _ => handleImageFile file s
  | [] => s
  end.

Definition msgDropInvalid : string := "请拖拽有效的图片文件".

(** The [drop] handler *)
Definition onDrop (files : list File) (s : State) : State :=
  match files with
  | file :: _ =>
      if JS.startsWith (ftype file) "image/" then
        s ;> handleImageFile file ;> showToast "已拖拽上传图片" "success"
      else showError msgDropInvalid s
  | [] => showError msgDropInvalid s
  end.

(** *** The event loop *)

Inductive Event :=
| Paste (items : list Item)
| FileChange (files : list File)
| Drop (files : list File)
| FileLoaded (n : nat)            (* n-th pending read ends with onload *)
| FileFailed (n : nat)            (* n-th pending read ends with onerror *)
| AjaxSuccess (id : nat) (data : Blob)
| AjaxError (id : nat) (status : string) (xhr : Xhr)
| BlobLoaded (n : nat)
| Reveal
| SuccessMsg
| Reset.

Fixpoint remove_nth {A} (n : nat) (l : list A) : list A :=
  match n, l with
  | _, [] => []
  | O, _ :: t => t
  | S m, h :: t => h :: remove_nth m t
  end.

Definition outstanding (id : nat) (s : State) : bool :=
  existsb (Nat.eqb id) (inflight s).

Definition resolve (id : nat) (s : State) : State :=
  set_inflight (filter (fun j => negb (Nat.eqb id j)) (inflight s)) s.

(** One turn of the event loop; [None] when the callback is not pending. *)
Definition step (s : State) (e : Event) : option State :=
  match e with
  | Paste items => Some (onPaste items s)
  | FileChange files => Some (onFileChange files s)
  | Drop files => Some (onDrop files s)
  | FileLoaded n =>
      match nth_error (pendingReads s) n with
      | Some file =>
          Some (onFileLoaded file
                  (set_pendingReads (remove_nth n (pendingReads s)) s))
      | None => None
      end
  | FileFailed n =>
      match nth_error (pendingReads s) n with
      | Some _ =>
          Some (onFileError
                  (set_pendingReads (remove_nth n (pendingReads s)) s))
      | None => None
      end
  | AjaxSuccess id data =>
      if outstanding id s then Some (onAjaxSuccess data (resolve id s))
      else None
  | AjaxError id status xhr =>
      if outstanding id s then Some (onAjaxError xhr status (resolve id s))
      else None
  | BlobLoaded n =>
      match nth_error (pendingBlobReads s) n with
      | Some data =>
          Some (onBlobLoaded data
                  (set_pendingBlobReads
                     (remove_nth n (pendingBlobReads s)) s))
      | None => None
      end
  | Reveal =>
      match pendingReveal s with
      | S m => Some (onReveal (set_pendingReveal m s))
      | O => None
      end
  | SuccessMsg =>
      match pendingSuccessMsg s with
      | S m => Some (showSuccess msgDone (set_pendingSuccessMsg m s))
      | O => None
      end
  | Reset => Some (resetTool s)
  end.

Fixpoint run (s : State) (es : list Event) : option State :=
  match es with
  | [] => Some s
  | e :: rest =>
      match step s e with
      | Some s' => run s' rest
      | None => None
      end
  end.

(** The page as loaded: only the paste area and the placeholder show. *)
Definition init : State :=
  {| currentImageData := None;
     processedImageBlob := None;
     processedImageBase64 := None;
     visible := fun e =>
       match e with
       | PasteArea | NoImagePlaceholder => true
       | _ => false
       end;
     text := fun _ => "";
     loading := false;
     toasts := [];
     pendingReads := [];
     requests := [];
     inflight := [];
     pendingBlobReads := [];
     pendingReveal := 0;
     pendingSuccessMsg := 0 |}.

Inductive reachable : State -> Prop :=
| reach_init : reachable init
| reach_step s e s' : reachable s -> step s e = Some s' -> reachable s'.

(** *** The phases of the specification, read off the page

    The script has no phase variable: which panels are shown is its
    state.  No image means [Idle]; the progress panel means [Processing];
    otherwise the result panel means [Result]; otherwise a shown error
    means [Failed], and an image with none of these is [Loaded].  The error
    is kept nowhere but in the alert, so the alert is the session's error;
    the alert's own fade-out is not part of the model. *)
Inductive Phase := Idle | Loaded | Processing | Result | Failed.

Definition phase (s : State) : Phase :=
  match currentImageData s with
  | None => Idle
  | Some _ =>
      if visible s ProcessingContainer then Processing
      else if visible s ProcessedImageContainer then Result
      else if visible s ErrorAlert then Failed
      else Loaded
  end.

(** The session's record fields: [original], [result], [error]. *)
Definition original (s : State) : option string := currentImageData s.
Definition result (s : State) : option Blob := processedImageBlob s.
Definition error (s : State) : option string :=
  if visible s ErrorAlert then Some (text s ErrorMessage) else None.

(** What a rejected acquisition has to leave alone: the three globals, the
    network, the pending reads and every panel but the error alert. *)
Definition untouched (s s' : State) : Prop :=
  currentImageData s' = currentImageData s
  /\ processedImageBlob s' = processedImageBlob s
  /\ processedImageBase64 s' = processedImageBase64 s
  /\ requests s' = requests s
  /\ inflight s' = inflight s
  /\ pendingReads s' = pendingReads s
  /\ (forall e, e <> ErrorAlert -> visible s' e = visible s e).

(** The state after a run from the loaded page ([init] if it gets stuck). *)
Definition after (es : list Event) : State :=
  match run init es with Some s => s | None => init end.

End Session.

(** ** Copying an image to the clipboard as a file *)

Module Clipboard.
Import Browser.

(** What the export does, in the order it does it. *)
Inductive Action :=
| Fetch (src : string)
| ConvertToPNG (b : Blob)
| ClipboardWrite (mime : string) (b : Blob) (accepted : bool).

(** The browser services the export calls. *)
Record Platform := {
  (* navigator.clipboard && navigator.clipboard.write *)
  clipboardAvailable : bool;
  (* fetch(src) followed by response.blob() *)
  fetchBlob : string -> Error + Blob;
  (* the Image element fires onload rather than onerror *)
  imageLoads : Blob -> bool;
  (* canvas.toBlob(cb, 'image/png', 1.0): the PNG content, or null *)
  canvasToPNG : Blob -> option string;
  (* new ClipboardItem({[mime]: blob}) and navigator.clipboard.write:
     the error thrown, if any *)
  clipboardWrite : string -> Blob -> option Error;
  (* new Date().toISOString() *)
  nowISO : string
}.

(** *** Promises that log what they do *)

Inductive Outcome (A : Type) :=
| Done (a : A)
| Thrown (e : Error).
Arguments Done {A} a.
Arguments Thrown {A} e.

Definition M (A : Type) : Type := list Action * Outcome A.

Definition ret {A} (a : A) : M A := ([], Done a).
Definition throw {A} (e : Error) : M A := ([], Thrown e).
Definition act {A} (a : Action) (o : Outcome A) : M A := ([a], o).

Definition bind {A B} (m : M A) (f : A -> M B) : M B :=
  match m with
  | (l, Done a) => let '(l', r) := f a in ((l ++ l')%list, r)
  | (l, Thrown e) => (l, Thrown e)
  end.

Definition catch {A} (m : M A) (h : Error -> M A) : M A :=
  match m with
  | (l, Done a) => (l, Done a)
  | (l, Thrown e) => let '(l', r) := h e in ((l ++ l')%list, r)
  end.

Notation "x <- m ;; k" := (bind m (fun x => k))
  (at level 61, m at next level, right associativity).

(** [try { m; return } catch (error) { console.warn(...) }]: whether the
    function returned from inside the [try]. *)
Definition attempt (m : M unit) : M bool :=
  catch (_ <- m ;; ret true) (fun _ => ret false).

Section Exporter.
Variable P : Platform.

Definition mkError (name message : string) : Error :=
  {| ename := name; emessage := message |}.

Definition fetch (src : string) : M Blob :=
  act (Fetch src)
      (match fetchBlob P src with
       | inr blob => Done blob
       | inl e => Thrown e
       end).

(** [convertImageToPNG]: the blob that [canvas.toBlob] builds has type
    image/png. *)
Definition convertImageToPNG (blob : Blob) : M Blob :=
  act (ConvertToPNG blob)
      (if imageLoads P blob then
         match canvasToPNG P blob with
         | Some png => Done {| btype := "image/png"; bpayload := png |}
         | None => Thrown (mkError "Error" "PNG转换失败")
         end
       else Thrown (mkError "Error" "图片加载失败")).

(** [await navigator.clipboard.write([new ClipboardItem({[mime]: blob})])] *)
Definition write (mime : string) (blob : Blob) : M unit :=
  match clipboardWrite P mime blob with
  | None => act (ClipboardWrite mime blob true) (Done tt)
  | Some e => act (ClipboardWrite mime blob false) (Thrown e)
  end.

Definition supportedTypes : list string :=
  ["image/png"; "image/jpeg"; "image/webp"; "image/gif"].

(** The last loop of [writeToClipboardWithFallback]: [true] when a write
    was accepted.  A type other than the blob's own is skipped, no
    conversion to it being written. *)
Fixpoint sweep (blob : Blob) (mimeType : string) (types : list string)
  : M bool :=
  match types with
  | [] => ret false
  | type :: rest =>
      if ((type =? mimeType) || (type =? "image/png"))%bool then
        sweep blob mimeType rest
      else if negb (type =? btype blob) then sweep blob mimeType rest
      else
        ok <- attempt (write type blob) ;;
        if ok : bool then ret true else sweep blob mimeType rest
  end.

Definition msgAllFailed : string := "所有支持的图片格式都无法写入剪贴板".
Definition allFailed : Error := mkError "Error" msgAllFailed.

Definition writeToClipboardWithFallback (blob : Blob) (mimeType : string)
  : M unit :=
  ok <- attempt (write mimeType blob) ;;
  if ok : bool then ret tt
  else
    ok <- (if negb (mimeType =? "image/png") then
             attempt (pngBlob <- convertImageToPNG blob ;;
                      write "image/png" pngBlob)
           else ret false) ;;
    if ok : bool then ret tt
    else
      ok <- sweep blob mimeType supportedTypes ;;
      if ok : bool then ret tt
      else throw allFailed.

(** [new Date().toISOString().slice(0, 19).replace(/[:.]/g, '-')] *)
Definition timestamp : string :=
  JS.replace_colon_dot (JS.slice0 19 (nowISO P)).

(** [finalMimeType.split('/')[1] || 'png'] *)
Definition extensionOf (mimeType : string) : string :=
  JS.or_else (nth_error (JS.split "/" mimeType) 1) "png".

Definition prefixOf (imageType : string) : string :=
  if imageType =? "processed" then "docuscan_enhanced"
  else if imageType =? "original" then "docuscan_original"
  else "docuscan_image".

(** The file name reported for a final MIME type. *)
Definition fileName (imageType finalMimeType : string) : string :=
  prefixOf imageType ++ "_" ++ timestamp ++ "."
  ++ extensionOf finalMimeType.

Definition isJPEG (blob : Blob) : bool :=
  ((btype blob =? "image/jpeg") || (btype blob =? "image/jpg"))%bool.

(** The [try] block of [copyImageAsFile]; both branches on
    [src.startsWith('data:')] fetch [src] in the same way.  The value is
    the file name put in the success toast. *)
Definition copyTry (src imageType : string) : M string :=
  blob <- fetch src ;;
  final <- (if isJPEG blob then
              png <- convertImageToPNG blob ;; ret (png, "image/png")
            else ret (blob, btype blob)) ;;
  let '(finalBlob, finalMimeType) := final in
  let filename := fileName imageType finalMimeType in
  _ <- writeToClipboardWithFallback finalBlob finalMimeType ;;
  ret filename.

(** The message chosen in the [catch] block. *)
Definition copyErrorMessage (imageType : string) (e : Error) : string :=
  if ename e =? "NotAllowedError" then
    if JS.includes (emessage e) "not supported on write" then
      "图片格式不被浏览器支持，正在尝试转换格式..."
    else
      "复制被拒绝：" ++
      (if imageType =? "processed" then "处理后" else "原始")
      ++ "图片权限不足"
  else if ename e =? "TypeError" then "图片格式不支持，请重新处理图片"
  else if JS.includes (emessage e) "fetch" then "图片加载失败，请重试"
  else if ename e =? "DataCloneError" then
    "图片数据无法复制，请尝试重新处理"
  else if JS.includes (emessage e) "PNG转换失败" then
    "图片格式转换失败，请尝试重新上传图片"
  else if JS.includes (emessage e) msgAllFailed then
    "您的浏览器不支持此功能，建议使用最新版Chrome、Firefox或Edge"
  else "复制失败，请重试".

(** How a call of [copyImageAsFile] ends. *)
Inductive CopyResult :=
| NotSupported                    (* showError, nothing tried *)
| CopiedAs (filename : string)    (* toast "已复制为文件: filename" *)
| CopyFailed (errorMsg : string). (* toast with errorMsg *)

Definition copyImageAsFile (src imageType : string)
  : list Action * CopyResult :=
  if negb (clipboardAvailable P) then ([], NotSupported)
  else
    match copyTry src imageType with
    | (l, Done filename) => (l, CopiedAs filename)
    | (l, Thrown e) => (l, CopyFailed (copyErrorMessage imageType e))
    end.

(** The toasts of a call, in order. *)
Definition copyToasts (r : CopyResult) : list (string * string) :=
  match r with
  | NotSupported => []
  | CopiedAs filename =>
      [("📋 正在准备复制...", "info");
       ("✅ 已复制为文件: " ++ filename, "success")]
  | CopyFailed errorMsg =>
      [("📋 正在准备复制...", "info");
       ("❌ " ++ errorMsg, "error");
       ("💡 提示：您也可以右键图片选择" ++ JS.dquote ++ "图片另存为"
        ++ JS.dquote, "info")]
  end.

(** [copyCurrentImageAsFile] and [copyOriginalImageAsFile]: [None] when
    there is nothing to copy and an error is shown instead. *)
Definition copyCurrentImageAsFile (s : Session.State)
  : option (list Action * CopyResult) :=
  match Session.processedImageBase64 s with
  | Some d => if JS.truthy d then Some (copyImageAsFile d "processed")
              else None
  | None => None
  end.

Definition copyOriginalImageAsFile (s : Session.State)
  : option (list Action * CopyResult) :=
  match Session.currentImageData s with
  | Some d => if JS.truthy d then Some (copyImageAsFile d "original")
              else None
  | None => None
  end.

End Exporter.

(** *** Reading a log *)

(** The MIME types of the clipboard writes attempted, in order. *)
Fixpoint attempts (l : list Action) : list string :=
  match l with
  | [] => []
  | ClipboardWrite mime _ _ :: r => mime :: attempts r
  | _ :: r => attempts r
  end.

(** The MIME type of the write that the clipboard accepted. *)
Fixpoint written (l : list Action) : option string :=
  match l with
  | [] => None
  | ClipboardWrite mime _ true :: _ => Some mime
  | _ :: r => written r
  end.

(** The part of a file name after its last dot. *)
Fixpoint last_part (l : list string) : string :=
  match l with
  | [] => ""
  | [x] => x
  | _ :: r => last_part r
  end.
Definition reportedExtension (filename : string) : string :=
  last_part (JS.split "." filename).

End Clipboard.

(** ** Sample inputs *)

Module Samples.
Import Browser Session Clipboard.

Definition fileA : File :=
  {| fname := "a.png"; ftype := "image/png";
     fsize := 2 * 1024 * 1024; fpayload := "QUFB" |}.
Definition fileB : File :=
  {| fname := "b.png"; ftype := "image/png";
     fsize := 4096; fpayload := "QkJC" |}.
Definition bigJpeg : File :=
  {| fname := "big.jpg"; ftype := "image/jpeg";
     fsize := 12 * 1024 * 1024; fpayload := "SkpK" |}.
Definition bigText : File :=
  {| fname := "big.txt"; ftype := "text/plain";
     fsize := 12 * 1024 * 1024; fpayload := "VFRU" |}.

(** The service's answer for image A. *)
Definition resultA : Blob := {| btype := "image/jpeg"; bpayload := "UkVT" |}.

Definition xhrTimeout : Xhr := {| xstatus := 0; responseDetail := None |}.
Definition xhr500 : Xhr := {| xstatus := 500; responseDetail := None |}.

(** Image A is picked and read, and its request is outstanding. *)
Definition processingA : list Event := [FileChange [fileA]; FileLoaded 0].

(** Image B is picked and read while the request for A is outstanding. *)
Definition processingB : list Event :=
  processingA ++ [FileChange [fileB]; FileLoaded 0].

(** Image A is processed and its result shown. *)
Definition resultShownA : list Event :=
  processingA ++ [AjaxSuccess 0 resultA; BlobLoaded 0; Reveal; SuccessMsg].

(** A data URL is fetched back into a blob of its type. *)
Definition fetchSample (src : string) : Error + Blob :=
  if JS.startsWith src "data:image/webp;base64," then
    inr {| btype := "image/webp"; bpayload := "V0VC" |}
  else if JS.startsWith src "data:image/jpeg;base64," then
    inr {| btype := "image/jpeg"; bpayload := "SlBH" |}
  else inl {| ename := "TypeError"; emessage := "Failed to fetch" |}.

(** A browser whose clipboard takes every type. *)
Definition acceptsAll : Platform :=
  {| clipboardAvailable := true;
     fetchBlob := fetchSample;
     imageLoads := fun _ => true;
     canvasToPNG := fun b => Some ("PNG-" ++ bpayload b);
     clipboardWrite := fun _ _ => None;
     nowISO := "2024-01-02T03:04:05.678Z" |}.

(** A browser whose clipboard takes image/png only. *)
Definition pngOnly : Platform :=
  {| clipboardAvailable := true;
     fetchBlob := fetchSample;
     imageLoads := fun _ => true;
     canvasToPNG := fun b => Some ("PNG-" ++ bpayload b);
     clipboardWrite := fun mime _ =>
       if mime =? "image/png" then None
       else Some {| ename := "NotAllowedError";
                    emessage := "Type " ++ mime ++ " not supported on write." |};
     nowISO := "2024-01-02T03:04:05.678Z" |}.

Definition jpegSrc : string := "data:image/jpeg;base64,SlBH".
Definition webpSrc : string := "data:image/webp;base64,V0VC".

End Samples.

(** ** The rest of the page: download, leaving, toasts *)

Module Page.
Import Browser Session.

(** [new Date().toISOString().slice(0, 19).replace(/[:.]/g, '-')], as
    [downloadImage] and [copyImageAsFile] both compute it. *)
Definition stamp (iso : string) : string :=
  JS.replace_colon_dot (JS.slice0 19 iso).

(** What [a.click()] saves: the blob behind the object URL and the
    [download] attribute. *)
Record Download := { dblob : Blob; dname : string }.

Definition msgNothingToDownload : string := "没有可下载的处理后图片".
Definition msgDownloaded : string := "📥 图片下载完成！已保存到下载文件夹".
Definition msgDownloadFailed : string := "下载失败，请重试".

(** [downloadImage]; [iso] is [new Date().toISOString()] and [throws] tells
    whether a statement of the [try] block throws before the click.  The
    button animation and the console log are left out. *)
Definition downloadImage (iso : string) (throws : bool) (s : State)
  : State * option Download :=
  match processedImageBlob s with
  | None => (showError msgNothingToDownload s, None)
  | Some blob =>
      if throws then (showError msgDownloadFailed s, None)
      else (showSuccess msgDownloaded s,
            Some {| dblob := blob;
                    dname := "docuscan_enhanced_" ++ stamp iso ++ ".jpg" |})
  end.

(** The [beforeunload] listener: whether it asks for confirmation,
    [currentImageData && !processedImageBlob]. *)
Definition beforeUnloadAsks (s : State) : bool :=
  match currentImageData s, processedImageBlob s with
  | Some d, None => JS.truthy d
  | _, _ => false
  end.

(** [icons[type]] of [showToast]. *)
Definition icons (type : string) : option string :=
  if type =? "success" then Some "✅"
  else if type =? "error" then Some "❌"
  else if type =? "warning" then Some "⚠️"
  else if type =? "info" then Some "ℹ️"
  else None.

(** A file that passes both checks of [handleImageFile]. *)
Definition accepted (f : File) : Prop :=
  JS.startsWith (ftype f) "image/" = true /\ (fsize f <= maxSize)%N.

(** Whether the character [c] occurs in [s]. *)
Fixpoint occurs (c : ascii) (s : string) : bool :=
  match s with
  | EmptyString => false
  | String a r => (Ascii.eqb a c || occurs c r)%bool
  end.

(** What is pending after a request was issued: the request itself, the
    read of its response, the reveal of its result. *)
Definition pendingWork (s : State) : nat :=
  List.length (inflight s) + List.length (pendingBlobReads s)
  + pendingReveal s.

(** The responses handed to the success callback during a run. *)
Fixpoint responses (es : list Event) : list Blob :=
  match es with
  | [] => []
  | AjaxSuccess _ data :: rest => data :: responses rest
  | _ :: rest => responses rest
  end.

(** Whether a run contains a reset. *)
Fixpoint resets (es : list Event) : bool :=
  match es with
  | [] => false
  | Reset :: _ => true
  | _ :: rest => resets rest
  end.

(** What an input event (paste, pick, drop) may not touch: the globals, the
    network, the work pending on a response, and every panel but the error
    alert. *)
Definition inputOnly (s s' : State) : Prop :=
  currentImageData s' = currentImageData s
  /\ processedImageBlob s' = processedImageBlob s
  /\ processedImageBase64 s' = processedImageBase64 s
  /\ requests s' = requests s
  /\ inflight s' = inflight s
  /\ pendingBlobReads s' = pendingBlobReads s
  /\ pendingReveal s' = pendingReveal s
  /\ (forall e, e <> ErrorAlert -> visible s' e = visible s e).

(** The events a user's input and a failed read produce. *)
Definition isInput (e : Event) : bool :=
  match e with
  | Paste _ | FileChange _ | Drop _ | FileFailed _ => true
  | _ => false
  end.

(** The three messages [copyImageAsFile] can end with once the fetch has
    succeeded. *)
Definition msgNoSupport : string :=
  "您的浏览器不支持此功能，建议使用最新版Chrome、Firefox或Edge".
Definition msgConversionFailed : string :=
  "图片格式转换失败，请尝试重新上传图片".
Definition msgCopyFailed : string := "复制失败，请重试".

(** A clipboard that refuses every write for lack of permission. *)
Definition denied : Clipboard.Platform :=
  {| Clipboard.clipboardAvailable := true;
     Clipboard.fetchBlob := Samples.fetchSample;
     Clipboard.imageLoads := fun _ => true;
     Clipboard.canvasToPNG := fun b => Some ("PNG-" ++ bpayload b);
     Clipboard.clipboardWrite := fun _ _ =>
       Some {| ename := "NotAllowedError";
               emessage := "Write permission denied." |};
     Clipboard.nowISO := "2024-01-02T03:04:05.678Z" |}.

End Page.

(** * Properties *)

(** ** The size formatter *)

Module FormatFacts.
Import Format.

Example format_0 : formatFileSize 0 = "0 B".
Proof. reflexivity. Qed.
Example format_1536 : formatFileSize 1536 = "1.5 KB".
Proof. reflexivity. Qed.
Example format_12MiB : formatFileSize (12 * 1024 * 1024) = "12 MB".
Proof. reflexivity. Qed.
Example format_12_3MiB : formatFileSize 12897485 = "12.3 MB".
Proof. reflexivity. Qed.
Example format_rounds_up : formatFileSize (1024 * 1024 - 1) = "1024 KB".
Proof. reflexivity. Qed.

(** The index is the integer logarithm in base 1024. *)
Lemma unit_index_spec (bytes : N) :
  (bytes <> 0)%N ->
  (k ^ N.of_nat (unit_index bytes) <= bytes
   < k ^ N.of_nat (S (unit_index bytes)))%N.
Proof.
  intros Hpos. unfold unit_index, k.
  rewrite Nat2N.inj_succ, N2Nat.id.
  set (q := (N.log2 bytes / 10)%N).
  assert (H10 : (1024 = 2 ^ 10)%N) by reflexivity.
  rewrite H10, <- !N.pow_mul_r.
  destruct (N.log2_spec bytes) as [Hlo Hhi]; [lia|].
  assert (Hq : (10 * q <= N.log2 bytes < 10 * N.succ q)%N).
  { unfold q. split.
    - apply N.Div0.mul_div_le.
    - apply N.mul_succ_div_gt. lia. }
  split.
  - eapply N.le_trans; [|exact Hlo].
    apply N.pow_le_mono_r; lia.
  - eapply N.lt_le_trans; [exact Hhi|].
    apply N.pow_le_mono_r; lia.
Qed.

Lemma unit_index_mono (a b : N) :
  (a <= b)%N -> (unit_index a <= unit_index b)%nat.
Proof.
  intros Hab. unfold unit_index.
  apply N.log2_le_mono in Hab.
  assert ((N.log2 a / 10 <= N.log2 b / 10)%N)
    by (apply N.Div0.div_le_mono; exact Hab).
  lia.
Qed.

(** Rounding to the nearest tenth, ties upwards. *)
Lemma tenths_nearest (bytes : N) (i : nat) :
  (2 * k ^ N.of_nat i * tenths bytes i
     <= 20 * bytes + k ^ N.of_nat i
     < 2 * k ^ N.of_nat i * N.succ (tenths bytes i))%N.
Proof.
  unfold tenths.
  assert (Hd : (2 * k ^ N.of_nat i <> 0)%N).
  { unfold k. assert ((1024 ^ N.of_nat i <> 0)%N)
      by (apply N.pow_nonzero; discriminate). lia. }
  split.
  - apply N.Div0.mul_div_le.
  - apply N.mul_succ_div_gt. exact Hd.
Qed.


(** Below 1024^4 the unit is one of the four listed. *)
Lemma unit_of_listed (bytes : N) :
  (bytes < 1024 ^ 4)%N -> exists u, unit_of bytes = Some u /\ In u sizes.
Proof.
  intros Hlt. unfold unit_of.
  assert (Hi : (unit_index bytes <= 3)%nat).
  { assert (H := unit_index_mono bytes (1024 ^ 4 - 1) ltac:(lia)).
    change (unit_index (1024 ^ 4 - 1)) with 3%nat in H. exact H. }
  destruct (nth_error sizes (unit_index bytes)) as [u|] eqn:E.
  - exists u. split; [reflexivity|]. eapply nth_error_In; exact E.
  - apply nth_error_None in E. simpl in E. lia.
Qed.


(** C10. For every byte count of at least 1024^4 the formatter's index
    [i] is at least 4, past the end of the four-element list
    [B, KB, MB, GB]; [sizes[i]] is undefined and the returned string ends
    in the text "undefined" instead of a unit.  Only there: for every byte
    count below 1024^4 the unit is one of the four listed. *)
Theorem formatFileSize_unit_out_of_range (bytes : N) :
  (1024 ^ 4 <= bytes)%N ->
  (List.length sizes <= unit_index bytes)%nat
  /\ unit_of bytes = None
  /\ formatFileSize bytes
     = number_text (tenths bytes (unit_index bytes)) ++ " undefined"
  /\ (forall small, (small < 1024 ^ 4)%N ->
      exists u, unit_of small = Some u /\ In u sizes).
Proof.
  intros Hge.
  cut ((List.length sizes <= unit_index bytes)%nat
       /\ unit_of bytes = None
       /\ formatFileSize bytes
          = number_text (tenths bytes (unit_index bytes)) ++ " undefined").
  { intros (H1 & H2 & H3). repeat split; try assumption.
    exact unit_of_listed. }
  assert (Hi : (4 <= unit_index bytes)%nat).
  { assert (H := unit_index_mono (1024 ^ 4) bytes Hge).
    change (unit_index (1024 ^ 4)) with 4%nat in H. exact H. }
  assert (Hnone : unit_of bytes = None).
  { unfold unit_of. apply nth_error_None. simpl. exact Hi. }
  split; [simpl; exact Hi|]. split; [exact Hnone|].
  unfold formatFileSize. rewrite Hnone.
  destruct (bytes =? 0)%N eqn:E.
  - apply N.eqb_eq in E. subst bytes. vm_compute in Hge. contradiction Hge.
    reflexivity.
  - reflexivity.
Qed.

Lemma formatFileSize_unit_out_of_range_witness :
  (1024 ^ 4 <= 1024 ^ 4)%N
  /\ formatFileSize (1024 ^ 4) = "1 undefined".
Proof.
  split; [apply N.le_refl|].
  exact (proj1 (proj2 (proj2 (formatFileSize_unit_out_of_range (1024 ^ 4)
                                (N.le_refl _))))).
Defined.

End FormatFacts.

(** ** The session *)

Module SessionFacts.
Import Browser Session Samples.

(** *** What the notifications leave alone *)



Lemma untouched_refl (s : State) : untouched s s.
Proof. unfold untouched; repeat split; reflexivity. Qed.


Lemma showError_error (msg : string) (s : State) :
  error (showError msg s) = Some msg.
Proof. reflexivity. Qed.

(** *** The two checks of [handleImageFile] *)




(** The synchronous part of an acquisition never calls the service. *)
Lemma handleImageFile_no_request (file : File) (s : State) :
  requests (handleImageFile file s) = requests s
  /\ inflight (handleImageFile file s) = inflight s
  /\ currentImageData (handleImageFile file s) = currentImageData s
  /\ processedImageBlob (handleImageFile file s) = processedImageBlob s
  /\ processedImageBase64 (handleImageFile file s) = processedImageBase64 s.
Proof.
  unfold handleImageFile.
  destruct (negb _); [repeat split; reflexivity|].
  destruct (_ <? _)%N; repeat split; reflexivity.
Qed.

Lemma onPaste_no_request (items : list Item) (s : State) :
  requests (onPaste items s) = requests s
  /\ inflight (onPaste items s) = inflight s
  /\ currentImageData (onPaste items s) = currentImageData s
  /\ processedImageBlob (onPaste items s) = processedImageBlob s
  /\ processedImageBase64 (onPaste items s) = processedImageBase64 s.
Proof.
  induction items as [|item rest IH]; simpl.
  - repeat split; reflexivity.
  - destruct (JS.includes _ _); [|exact IH].
    destruct (getAsFile item) as [file|]; [|repeat split; reflexivity].
    exact (handleImageFile_no_request file s).
Qed.


(** *** Loaded is never a resting phase *)




Lemma fileDataURL_truthy (file : File) : JS.truthy (fileDataURL file) = true.
Proof. reflexivity. Qed.




Lemma run_reachable (es : list Event) (s s' : State) :
  reachable s -> run s es = Some s' -> reachable s'.
Proof.
  revert s. induction es as [|e rest IH]; intros s Hr Hrun; simpl in Hrun.
  - injection Hrun as <-. exact Hr.
  - destruct (step s e) as [s1|] eqn:E; [|discriminate].
    eapply IH; [|exact Hrun]. eapply reach_step; eassumption.
Qed.

Lemma after_reachable (es : list Event) : reachable (after es).
Proof.
  unfold after. destruct (run init es) as [s|] eqn:E.
  - eapply run_reachable; [apply reach_init|exact E].
  - apply reach_init.
Qed.

(** *** Rejected candidates *)







(** *** Reset *)

(** C8. From every state of the page, hence from every phase ([Loaded],
    [Processing], [Result], [Failed]), [resetTool] yields phase [Idle]
    with the original, the result (blob and data URL) and the error all
    absent. *)
Theorem reset_yields_idle (s : State) :
  step s Reset = Some (resetTool s)
  /\ phase (resetTool s) = Idle
  /\ original (resetTool s) = None
  /\ result (resetTool s) = None
  /\ processedImageBase64 (resetTool s) = None
  /\ error (resetTool s) = None.
Proof. repeat split; reflexivity. Qed.

Example reset_while_processing :
  phase (after processingA) = Processing
  /\ phase (resetTool (after processingA)) = Idle.
Proof. split; reflexivity. Qed.

(** *** Requests *)

Lemma nth_error_snoc {A} (l : list A) (x : A) :
  nth_error (l ++ [x]) (List.length l) = Some x.
Proof. induction l as [|h t IH]; simpl; [reflexivity|exact IH]. Qed.



(** A request is issued by one event only: the end of a file read. *)
Lemma step_requests (s s' : State) (e : Event) :
  step s e = Some s' ->
  requests s' = requests s
  \/ exists n file,
       e = FileLoaded n
       /\ nth_error (pendingReads s) n = Some file
       /\ requests s' = (requests s ++ [processRequest (fileDataURL file)])%list.
Proof.
  intros Hs. destruct e; simpl in Hs.
  - injection Hs as <-. left. apply onPaste_no_request.
  - injection Hs as <-. left. destruct files as [|f fs]; simpl;
      [reflexivity|apply handleImageFile_no_request].
  - injection Hs as <-. left. destruct files as [|f fs]; simpl;
      [reflexivity|].
    destruct (JS.startsWith _ _); [|reflexivity].
    apply (handleImageFile_no_request f s).
  - destruct (nth_error _ _) as [file|] eqn:E; [|discriminate].
    injection Hs as <-. right. exists n, file.
    split; [reflexivity|]. split; [exact E|reflexivity].
  - destruct (nth_error _ _); [|discriminate]. injection Hs as <-.
    left; reflexivity.
  - destruct (outstanding _ _); [|discriminate]. injection Hs as <-.
    left; reflexivity.
  - destruct (outstanding _ _); [|discriminate]. injection Hs as <-.
    left; reflexivity.
  - destruct (nth_error _ _); [|discriminate]. injection Hs as <-.
    left; reflexivity.
  - destruct (pendingReveal s); [discriminate|]. injection Hs as <-.
    left; reflexivity.
  - destruct (pendingSuccessMsg s); [discriminate|]. injection Hs as <-.
    left; reflexivity.
  - injection Hs as <-. left; reflexivity.
Qed.




(** *** Timeout *)



(** *** A response that arrives late *)

(** C1 (as stated, refuted). Image B is acquired while the request for
    image A is outstanding.  A's response then arrives: its success is
    stored as the result and shown (phase [Result]) although the original
    is B and B's request is still outstanding; its failure puts the
    session in [Failed]. *)
Lemma stale_response_is_applied :
  option_map phase (run init processingB) = Some Processing
  /\ option_map original (run init processingB)
     = Some (Some (fileDataURL fileB))
  /\ option_map result (run init processingB) = Some None
  /\ option_map (fun s => option_map img (nth_error (requests s) 0))
       (run init processingB)
     = Some (Some (fileDataURL fileA))
  /\ option_map result (run init (processingB ++ [AjaxSuccess 0 resultA]))
     = Some (Some resultA)
  /\ option_map
       (fun s => (phase s, original s, result s, text s ProcessedImageSrc,
                  inflight s))
       (run init (processingB ++ [AjaxSuccess 0 resultA; BlobLoaded 0; Reveal]))
     = Some (Result, Some (fileDataURL fileB), Some resultA,
             blobDataURL resultA, [1])
  /\ option_map (fun s => (phase s, original s, error s))
       (run init (processingB ++ [AjaxError 0 "error" xhr500]))
     = Some (Failed, Some (fileDataURL fileB), Some msgServer).
Proof. repeat split; reflexivity. Qed.

(** C1 (amended). For every session in phase [Processing] with an
    outstanding request whose image is no longer the current original, the
    late resolution is applied like any other.  It never changes the
    original; a success stores the response as the result, and once its
    read and reveal callbacks have run the result is shown and the phase
    is [Result]; a failure stores its message as the error and the phase
    is [Failed]. *)
Theorem late_resolution_applied (s : State) (id : nat) (r : Request) :
  nth_error (requests s) id = Some r ->
  outstanding id s = true ->
  original s <> Some (img r) ->
  phase s = Processing ->
  (forall data, exists s1 s2 s3,
      step s (AjaxSuccess id data) = Some s1
      /\ original s1 = original s
      /\ result s1 = Some data
      /\ step s1 (BlobLoaded (List.length (pendingBlobReads s))) = Some s2
      /\ processedImageBase64 s2 = Some (blobDataURL data)
      /\ step s2 Reveal = Some s3
      /\ original s3 = original s
      /\ result s3 = Some data
      /\ text s3 ProcessedImageSrc = blobDataURL data
      /\ phase s3 = Result)
  /\ (forall status xhr, exists s1,
        step s (AjaxError id status xhr) = Some s1
        /\ original s1 = original s
        /\ result s1 = result s
        /\ error s1 = Some (processingErrorMessage xhr status)
        /\ phase s1 = Failed).
Proof.
  intros _ Ho _ Hp.
  assert (Hc : exists d, currentImageData s = Some d).
  { unfold phase in Hp. destruct (currentImageData s) as [d|];
      [exists d; reflexivity|discriminate]. }
  destruct Hc as [d Hd].
  split.
  - intros data. do 3 eexists.
    split; [simpl; rewrite Ho; reflexivity|].
    split; [reflexivity|]. split; [reflexivity|].
    split; [simpl; rewrite nth_error_snoc; reflexivity|].
    split; [reflexivity|].
    split; [reflexivity|].
    split; [reflexivity|]. split; [reflexivity|]. split; [reflexivity|].
    unfold phase. simpl. rewrite Hd. reflexivity.
  - intros status xhr. eexists.
    split; [simpl; rewrite Ho; reflexivity|].
    split; [reflexivity|]. split; [reflexivity|]. split; [reflexivity|].
    unfold phase. simpl. rewrite Hd. reflexivity.
Qed.

Lemma late_resolution_applied_witness :
  original (after processingB) = Some (fileDataURL fileB)
  /\ nth_error (requests (after processingB)) 0
     = Some (processRequest (fileDataURL fileA))
  /\ exists s1 s2 s3,
      step (after processingB) (AjaxSuccess 0 resultA) = Some s1
      /\ original s1 = original (after processingB)
      /\ result s1 = Some resultA
      /\ step s1 (BlobLoaded 0) = Some s2
      /\ processedImageBase64 s2 = Some (blobDataURL resultA)
      /\ step s2 Reveal = Some s3
      /\ original s3 = original (after processingB)
      /\ result s3 = Some resultA
      /\ text s3 ProcessedImageSrc = blobDataURL resultA
      /\ phase s3 = Result.
Proof.
  split; [reflexivity|]. split; [reflexivity|].
  refine (proj1 (late_resolution_applied (after processingB) 0
                   (processRequest (fileDataURL fileA))
                   eq_refl eq_refl _ eq_refl) resultA).
  discriminate.
Defined.

(** *** What survives a failure and a new acquisition *)

(** C2 (as stated, refuted). After image A has been processed, image B is
    acquired: the session is processing B and still holds A's result, blob
    and data URL; when B's request fails, the session is [Failed] and
    still holds A's result. *)
Lemma result_outlives_new_acquisition :
  option_map (fun s => (phase s, original s, result s, processedImageBase64 s))
    (run init (resultShownA ++ [FileChange [fileB]; FileLoaded 0]))
  = Some (Processing, Some (fileDataURL fileB), Some resultA,
          Some (blobDataURL resultA))
  /\ option_map (fun s => (phase s, result s))
       (run init (resultShownA ++ [FileChange [fileB]; FileLoaded 0;
                                   AjaxError 1 "timeout" xhrTimeout]))
     = Some (Failed, Some resultA).
Proof. split; reflexivity. Qed.

(** C2 (amended). The result is stored by a success response and cleared
    by reset, and by nothing else.  A failure leaves the result as it was
    (absent when it was absent) and stores the error.  A new acquisition,
    when its read resolves, replaces the original and clears the error,
    and keeps the previous result, blob and data URL.  Every other event
    leaves original and result alone. *)
Theorem result_set_by_success_cleared_by_reset (s s' : State) (e : Event) :
  step s e = Some s' ->
  match e with
  | AjaxSuccess _ data =>
      result s' = Some data /\ original s' = original s
  | AjaxError _ status xhr =>
      result s' = result s
      /\ processedImageBase64 s' = processedImageBase64 s
      /\ original s' = original s
      /\ error s' = Some (processingErrorMessage xhr status)
  | FileLoaded n =>
      exists file,
        nth_error (pendingReads s) n = Some file
        /\ original s' = Some (fileDataURL file)
        /\ error s' = None
        /\ result s' = result s
        /\ processedImageBase64 s' = processedImageBase64 s
  | BlobLoaded n =>
      exists data,
        nth_error (pendingBlobReads s) n = Some data
        /\ processedImageBase64 s' = Some (blobDataURL data)
        /\ result s' = result s
        /\ original s' = original s
  | Reset =>
      original s' = None /\ result s' = None
      /\ processedImageBase64 s' = None /\ error s' = None
  | Paste _ | FileChange _ | Drop _ | FileFailed _ | Reveal | SuccessMsg =>
      original s' = original s
      /\ result s' = result s
      /\ processedImageBase64 s' = processedImageBase64 s
  end.
Proof.
  intros Hs. destruct e; simpl in Hs.
  - injection Hs as <-.
    destruct (onPaste_no_request items s) as (_ & _ & H1 & H2 & H3).
    repeat split; assumption.
  - injection Hs as <-. destruct files as [|f fs]; simpl;
      [repeat split; reflexivity|].
    destruct (handleImageFile_no_request f s) as (_ & _ & H1 & H2 & H3).
    repeat split; assumption.
  - injection Hs as <-. destruct files as [|f fs]; simpl;
      [repeat split; reflexivity|].
    destruct (JS.startsWith _ _); [|repeat split; reflexivity].
    destruct (handleImageFile_no_request f s) as (_ & _ & H1 & H2 & H3).
    repeat split; assumption.
  - destruct (nth_error _ _) as [file|] eqn:E; [|discriminate].
    injection Hs as <-. exists file.
    split; [reflexivity|]. repeat split; reflexivity.
  - destruct (nth_error _ _); [|discriminate]. injection Hs as <-.
    repeat split; reflexivity.
  - destruct (outstanding _ _); [|discriminate]. injection Hs as <-.
    repeat split; reflexivity.
  - destruct (outstanding _ _); [|discriminate]. injection Hs as <-.
    repeat split; reflexivity.
  - destruct (nth_error _ _) as [data|] eqn:E; [|discriminate].
    injection Hs as <-. exists data. repeat split; reflexivity.
  - destruct (pendingReveal s); [discriminate|]. injection Hs as <-.
    repeat split; reflexivity.
  - destruct (pendingSuccessMsg s); [discriminate|]. injection Hs as <-.
    repeat split; reflexivity.
  - injection Hs as <-. repeat split; reflexivity.
Qed.

Lemma result_set_by_success_cleared_by_reset_witness :
  result (after (resultShownA ++ [FileChange [fileB]])) = Some resultA
  /\ exists s',
      step (after (resultShownA ++ [FileChange [fileB]])) (FileLoaded 0)
      = Some s'
      /\ exists file,
          nth_error
            (pendingReads (after (resultShownA ++ [FileChange [fileB]]))) 0
          = Some file
          /\ original s' = Some (fileDataURL file)
          /\ error s' = None
          /\ result s'
             = result (after (resultShownA ++ [FileChange [fileB]]))
          /\ processedImageBase64 s'
             = processedImageBase64
                 (after (resultShownA ++ [FileChange [fileB]])).
Proof.
  split; [reflexivity|].
  destruct (step (after (resultShownA ++ [FileChange [fileB]])) (FileLoaded 0))
    as [s'|] eqn:E.
  - exists s'. split; [reflexivity|].
    exact (result_set_by_success_cleared_by_reset _ s' (FileLoaded 0) E).
  - exfalso. vm_compute in E. discriminate E.
Defined.

End SessionFacts.

(** ** The clipboard export *)

Module ClipboardFacts.
Import Browser Clipboard Samples.

Section Chain.
Variable P : Platform.

(** When the blob is written under its own type, the last loop finds
    nothing to try: every listed type is the blob's type, or PNG, or a
    type no conversion exists for. *)
Lemma sweep_own_type (blob : Blob) (types : list string) :
  sweep P blob (btype blob) types = ([], Done false).
Proof.
  induction types as [|type rest IH]; simpl; [reflexivity|].
  destruct (type =? btype blob) eqn:E; simpl; [exact IH|].
  destruct (type =? "image/png"); simpl; exact IH.
Qed.

(** The chain, unfolded, for a blob written under its own type. *)
Lemma fallback_equation (blob : Blob) :
  writeToClipboardWithFallback P blob (btype blob)
  = match clipboardWrite P (btype blob) blob with
    | None => ([ClipboardWrite (btype blob) blob true], Done tt)
    | Some _ =>
        if btype blob =? "image/png" then
          ([ClipboardWrite (btype blob) blob false], Thrown allFailed)
        else if imageLoads P blob then
          match canvasToPNG P blob with
          | Some png =>
              let pngBlob := {| btype := "image/png"; bpayload := png |} in
              match clipboardWrite P "image/png" pngBlob with
              | None =>
                  ([ClipboardWrite (btype blob) blob false;
                    ConvertToPNG blob;
                    ClipboardWrite "image/png" pngBlob true], Done tt)
              | Some _ =>
                  ([ClipboardWrite (btype blob) blob false;
                    ConvertToPNG blob;
                    ClipboardWrite "image/png" pngBlob false],
                   Thrown allFailed)
              end
          | None =>
              ([ClipboardWrite (btype blob) blob false; ConvertToPNG blob],
               Thrown allFailed)
          end
        else
          ([ClipboardWrite (btype blob) blob false; ConvertToPNG blob],
           Thrown allFailed)
    end.
Proof.
  unfold writeToClipboardWithFallback. rewrite sweep_own_type.
  unfold attempt, write, convertImageToPNG, bind, catch, ret, act, throw.
  destruct (clipboardWrite P (btype blob) blob); [|reflexivity].
  destruct (btype blob =? "image/png"); simpl; [reflexivity|].
  destruct (imageLoads P blob); [|reflexivity].
  destruct (canvasToPNG P blob) as [png|]; [|reflexivity].
  destruct (clipboardWrite P "image/png" _); reflexivity.
Qed.

End Chain.

Section Copy.
Variable P : Platform.
Variables src imageType : string.
Variable blob : Blob.
Hypothesis available : clipboardAvailable P = true.
Hypothesis fetched : fetchBlob P src = inr blob.

(** A source that is not JPEG goes to the chain as it is. *)
Lemma copy_other (Hj : isJPEG blob = false) :
  copyImageAsFile P src imageType
  = (Fetch src :: fst (writeToClipboardWithFallback P blob (btype blob)),
     match snd (writeToClipboardWithFallback P blob (btype blob)) with
     | Done _ => CopiedAs (fileName P imageType (btype blob))
     | Thrown e => CopyFailed (copyErrorMessage imageType e)
     end).
Proof.
  unfold copyImageAsFile, copyTry, fetch. rewrite available, fetched.
  unfold act, bind at 1. rewrite Hj.
  unfold ret, bind at 1.
  destruct (writeToClipboardWithFallback P blob (btype blob))
    as [l [[]|e]]; simpl; [rewrite app_nil_r|]; reflexivity.
Qed.

(** A JPEG source is converted first; the chain gets the PNG. *)
Lemma copy_jpeg (Hj : isJPEG blob = true) :
  copyImageAsFile P src imageType
  = if imageLoads P blob then
      match canvasToPNG P blob with
      | Some png =>
          let pngBlob := {| btype := "image/png"; bpayload := png |} in
          (Fetch src :: ConvertToPNG blob
             :: fst (writeToClipboardWithFallback P pngBlob (btype pngBlob)),
           match snd (writeToClipboardWithFallback P pngBlob (btype pngBlob))
           with
           | Done _ => CopiedAs (fileName P imageType "image/png")
           | Thrown e => CopyFailed (copyErrorMessage imageType e)
           end)
      | None =>
          ([Fetch src; ConvertToPNG blob],
           CopyFailed (copyErrorMessage imageType
                         (mkError "Error" "PNG转换失败")))
      end
    else
      ([Fetch src; ConvertToPNG blob],
       CopyFailed (copyErrorMessage imageType
                     (mkError "Error" "图片加载失败"))).
Proof.
  unfold copyImageAsFile, copyTry, fetch. rewrite available, fetched.
  unfold act, bind at 1. rewrite Hj.
  unfold convertImageToPNG, act.
  destruct (imageLoads P blob); [|reflexivity].
  destruct (canvasToPNG P blob) as [png|]; [|reflexivity].
  cbn -[writeToClipboardWithFallback fileName copyErrorMessage].
  destruct (writeToClipboardWithFallback P _ "image/png")
    as [l [[]|e]]; simpl; [rewrite app_nil_r|]; reflexivity.
Qed.

End Copy.

Lemma jpeg_is_not_png (blob : Blob) :
  isJPEG blob = true -> btype blob <> "image/png".
Proof.
  unfold isJPEG. intros H E. rewrite E in H. discriminate H.
Qed.

(** C3 (as stated, refuted). On a browser whose clipboard accepts every
    type, the export of a JPEG source converts it to PNG before anything is
    written, and the only write is tagged image/png: no write tagged
    image/jpeg is attempted. *)
Lemma jpeg_is_converted_before_any_write :
  fetchBlob acceptsAll jpegSrc
  = inr {| btype := "image/jpeg"; bpayload := "SlBH" |}
  /\ copyImageAsFile acceptsAll jpegSrc "processed"
     = ([Fetch jpegSrc;
         ConvertToPNG {| btype := "image/jpeg"; bpayload := "SlBH" |};
         ClipboardWrite "image/png"
           {| btype := "image/png"; bpayload := "PNG-SlBH" |} true],
        CopiedAs "docuscan_enhanced_2024-01-02T03-04-05.png")
  /\ attempts (fst (copyImageAsFile acceptsAll jpegSrc "processed"))
     = ["image/png"].
Proof. repeat split; reflexivity. Qed.

(** C3 (amended). For every export call whose source is not JPEG
    (neither image/jpeg nor image/jpg), the first clipboard write is made
    with the source MIME type and the source bytes; the PNG re-encode
    follows only when that write was rejected and the source type is not
    image/png, and is followed by at most one write, tagged image/png.  For
    a JPEG source the bytes are re-encoded as PNG before any write; at most
    one write follows, tagged image/png, and no write tagged with the
    source type is attempted. *)
Theorem first_write_and_png_reencode
        (P : Platform) (src imageType : string) (blob : Blob) :
  clipboardAvailable P = true ->
  fetchBlob P src = inr blob ->
  if isJPEG blob then
    ~ In (btype blob) (attempts (fst (copyImageAsFile P src imageType)))
    /\ exists rest,
        fst (copyImageAsFile P src imageType)
        = Fetch src :: ConvertToPNG blob :: rest
        /\ (rest = []
            \/ exists png ok,
                rest = [ClipboardWrite "image/png"
                          {| btype := "image/png"; bpayload := png |} ok])
  else
    exists accepted rest,
      fst (copyImageAsFile P src imageType)
      = Fetch src :: ClipboardWrite (btype blob) blob accepted :: rest
      /\ (rest = []
          \/ (accepted = false
              /\ btype blob <> "image/png"
              /\ exists rest',
                  rest = ConvertToPNG blob :: rest'
                  /\ (rest' = []
                      \/ exists png ok,
                          rest' = [ClipboardWrite "image/png"
                                     {| btype := "image/png";
                                        bpayload := png |} ok]))).
Proof.
  intros Ha Hf. destruct (isJPEG blob) eqn:Hj.
  - rewrite (copy_jpeg P src imageType blob Ha Hf Hj).
    pose proof (jpeg_is_not_png blob Hj) as Hne.
    destruct (imageLoads P blob).
    2:{ split; [simpl; tauto|]. eexists. split; [reflexivity|left; reflexivity]. }
    destruct (canvasToPNG P blob) as [png|].
    2:{ split; [simpl; tauto|]. eexists. split; [reflexivity|left; reflexivity]. }
    cbv zeta. rewrite fallback_equation. cbn [btype].
    destruct (clipboardWrite P "image/png" _); simpl.
    + split; [intros [E|[]]; apply Hne; symmetry; exact E|].
      eexists. split; [reflexivity|]. right. do 2 eexists. reflexivity.
    + split; [intros [E|[]]; apply Hne; symmetry; exact E|].
      eexists. split; [reflexivity|]. right. do 2 eexists. reflexivity.
  - rewrite (copy_other P src imageType blob Ha Hf Hj).
    rewrite fallback_equation.
    destruct (clipboardWrite P (btype blob) blob).
    2:{ do 2 eexists. split; [reflexivity|left; reflexivity]. }
    destruct (btype blob =? "image/png") eqn:Hp.
    { do 2 eexists. split; [reflexivity|left; reflexivity]. }
    apply String.eqb_neq in Hp.
    destruct (imageLoads P blob).
    2:{ do 2 eexists. split; [reflexivity|]. right.
        repeat split; [exact Hp|]. eexists. split; [reflexivity|left; reflexivity]. }
    destruct (canvasToPNG P blob) as [png|].
    2:{ do 2 eexists. split; [reflexivity|]. right.
        repeat split; [exact Hp|]. eexists. split; [reflexivity|left; reflexivity]. }
    cbv zeta.
    destruct (clipboardWrite P "image/png" _);
      (do 2 eexists; split; [reflexivity|]; right;
       repeat split; [exact Hp|]; eexists; split; [reflexivity|];
       right; do 2 eexists; reflexivity).
Qed.

Lemma first_write_and_png_reencode_witness :
  ~ In "image/jpeg"
      (attempts (fst (copyImageAsFile pngOnly jpegSrc "processed")))
  /\ exists rest,
      fst (copyImageAsFile pngOnly jpegSrc "processed")
      = Fetch jpegSrc
          :: ConvertToPNG {| btype := "image/jpeg"; bpayload := "SlBH" |}
          :: rest
      /\ (rest = []
          \/ exists png ok,
              rest = [ClipboardWrite "image/png"
                        {| btype := "image/png"; bpayload := png |} ok]).
Proof.
  exact (first_write_and_png_reencode pngOnly jpegSrc "processed"
           {| btype := "image/jpeg"; bpayload := "SlBH" |} eq_refl eq_refl).
Defined.

(** X24. The reported name is fixed before the chain runs: whenever an
    export succeeds, its name is built from the type handed to the chain
    (image/png for a JPEG source, the source type otherwise), and the write
    accepted is of that type or, for a source that is neither JPEG nor PNG,
    the PNG re-encode. *)
Lemma reported_name_fixed_before_writing
      (P : Platform) (src imageType : string) (blob : Blob)
      (l : list Action) (filename : string) :
  clipboardAvailable P = true ->
  fetchBlob P src = inr blob ->
  copyImageAsFile P src imageType = (l, CopiedAs filename) ->
  filename
  = fileName P imageType (if isJPEG blob then "image/png" else btype blob)
  /\ (written l = Some (if isJPEG blob then "image/png" else btype blob)
      \/ (isJPEG blob = false /\ btype blob <> "image/png"
          /\ written l = Some "image/png")).
Proof.
  intros Ha Hf. destruct (isJPEG blob) eqn:Hj.
  - rewrite (copy_jpeg P src imageType blob Ha Hf Hj).
    destruct (imageLoads P blob); [|discriminate].
    destruct (canvasToPNG P blob) as [png|]; [|discriminate].
    cbv zeta. rewrite fallback_equation. cbn [btype].
    destruct (clipboardWrite P "image/png" _); simpl; [discriminate|].
    intros H. injection H as <- <-. split; [reflexivity|left; reflexivity].
  - rewrite (copy_other P src imageType blob Ha Hf Hj).
    rewrite fallback_equation.
    destruct (clipboardWrite P (btype blob) blob).
    2:{ simpl. intros H. injection H as <- <-.
        split; [reflexivity|left; reflexivity]. }
    destruct (btype blob =? "image/png") eqn:Hp; [discriminate|].
    apply String.eqb_neq in Hp.
    destruct (imageLoads P blob); [|discriminate].
    destruct (canvasToPNG P blob) as [png|]; [|discriminate].
    cbv zeta.
    destruct (clipboardWrite P "image/png" _); simpl; [discriminate|].
    intros H. injection H as <- <-. split; [reflexivity|].
    right. repeat split. exact Hp.
Qed.

(** C4 (the code departs from the claim). A WebP source on a browser whose
    clipboard takes image/png only: the write tagged image/webp is
    rejected, the PNG re-encode is written and accepted, and the file name
    reported ends in .webp, not in the .png of the format written. *)
Theorem png_fallback_keeps_source_extension :
  copyImageAsFile pngOnly webpSrc "processed"
  = ([Fetch webpSrc;
      ClipboardWrite "image/webp"
        {| btype := "image/webp"; bpayload := "V0VC" |} false;
      ConvertToPNG {| btype := "image/webp"; bpayload := "V0VC" |};
      ClipboardWrite "image/png"
        {| btype := "image/png"; bpayload := "PNG-V0VC" |} true],
     CopiedAs "docuscan_enhanced_2024-01-02T03-04-05.webp")
  /\ written (fst (copyImageAsFile pngOnly webpSrc "processed"))
     = Some "image/png"
  /\ reportedExtension "docuscan_enhanced_2024-01-02T03-04-05.webp" = "webp"
  /\ extensionOf "image/png" = "png".
Proof. repeat split; reflexivity. Qed.

(** The same browser and a JPEG source: the name ends in .png, as the
    format written. *)
Example jpeg_export_reports_png :
  copyImageAsFile pngOnly jpegSrc "processed"
  = ([Fetch jpegSrc;
      ConvertToPNG {| btype := "image/jpeg"; bpayload := "SlBH" |};
      ClipboardWrite "image/png"
        {| btype := "image/png"; bpayload := "PNG-SlBH" |} true],
     CopiedAs "docuscan_enhanced_2024-01-02T03-04-05.png").
Proof. reflexivity. Qed.

End ClipboardFacts.

(** ** More on the size formatter *)

Module FormatMore.
Import Format.

Lemma unit_index_small (bytes : N) :
  (0 < bytes < 1024)%N -> unit_index bytes = 0%nat.
Proof.
  intros [Hpos Hlt]. unfold unit_index.
  assert (Hl : (N.log2 bytes < 10)%N).
  { apply N.log2_lt_pow2; [exact Hpos|exact Hlt]. }
  rewrite N.div_small by exact Hl. reflexivity.
Qed.

(** X1. A size below 1024 is printed exactly, in bytes: no rounding and no
    fractional digit. *)
Theorem formatFileSize_bytes_exact (bytes : N) :
  (0 < bytes < 1024)%N ->
  formatFileSize bytes = JS.dec bytes ++ " B".
Proof.
  intros H. unfold formatFileSize, unit_of.
  rewrite (unit_index_small bytes H).
  assert (Hne : (bytes =? 0)%N = false) by (apply N.eqb_neq; lia).
  rewrite Hne.
  assert (Ht : tenths bytes 0 = (10 * bytes)%N).
  { unfold tenths, k. change (2 * 1024 ^ N.of_nat 0)%N with 2%N.
    change (1024 ^ N.of_nat 0)%N with 1%N.
    symmetry. apply (N.div_unique _ 2 _ 1); lia. }
  rewrite Ht. unfold number_text.
  assert (Hm : ((10 * bytes) mod 10 = 0)%N).
  { rewrite N.mul_comm. apply N.Div0.mod_mul. }
  rewrite Hm. simpl (0 =? 0)%N. cbv iota.
  assert (Hd : (10 * bytes / 10 = bytes)%N).
  { rewrite N.mul_comm. apply N.div_mul. discriminate. }
  rewrite Hd. reflexivity.
Qed.

Lemma formatFileSize_bytes_exact_witness :
  formatFileSize 1023 = "1023 B".
Proof.
  exact (formatFileSize_bytes_exact 1023 (conj eq_refl eq_refl)).
Defined.

(** X2. For every size but 0 the number printed lies between 1 and 1024:
    the count of tenths is at least 10 and at most 10240, and it is the
    nearest tenth of the size divided by its power of 1024.  The upper end
    is met: a size just below the next power prints as 1024 of the smaller
    unit. *)
Theorem printed_value_between_1_and_1024 (bytes : N) :
  (bytes <> 0)%N ->
  (10 <= tenths bytes (unit_index bytes) <= 10240)%N
  /\ (2 * k ^ N.of_nat (unit_index bytes) * tenths bytes (unit_index bytes)
      <= 20 * bytes + k ^ N.of_nat (unit_index bytes)
      < 2 * k ^ N.of_nat (unit_index bytes)
        * N.succ (tenths bytes (unit_index bytes)))%N
  /\ tenths (1024 * 1024 - 1) (unit_index (1024 * 1024 - 1)) = 10240%N.
Proof.
  intros Hne.
  destruct (FormatFacts.unit_index_spec bytes Hne) as [Hlo Hhi].
  rewrite Nat2N.inj_succ, N.pow_succ_r' in Hhi.
  set (K := (k ^ N.of_nat (unit_index bytes))%N) in *.
  assert (HK : (0 < K)%N).
  { assert (K <> 0)%N by (apply N.pow_nonzero; discriminate). lia. }
  split; [|split; [apply FormatFacts.tenths_nearest|reflexivity]].
  unfold tenths. fold K. unfold k in Hhi.
  split.
  - apply N.div_le_lower_bound; lia.
  - assert (Hlt : ((20 * bytes + K) / (2 * K) < 10241)%N)
      by (apply N.Div0.div_lt_upper_bound; lia).
    lia.
Qed.

Lemma printed_value_between_1_and_1024_witness :
  (10 <= tenths 1536 (unit_index 1536) <= 10240)%N
  /\ formatFileSize 1536 = "1.5 KB".
Proof.
  split; [|reflexivity].
  exact (proj1 (printed_value_between_1_and_1024 1536 ltac:(discriminate))).
Defined.

End FormatMore.

(** ** Invariants of the event loop *)

Module SessionInvariants.
Import Browser Session Samples Page.

(** *** Input events *)

Lemma inputOnly_refl (s : State) : inputOnly s s.
Proof. unfold inputOnly; repeat split; reflexivity. Qed.

Lemma inputOnly_showError (msg : string) (s : State) :
  inputOnly s (showError msg s).
Proof.
  unfold inputOnly; repeat split; try reflexivity.
  intros e He. simpl. destruct e; try reflexivity. contradiction He.
  reflexivity.
Qed.

Lemma inputOnly_handleImageFile (file : File) (s : State) :
  inputOnly s (handleImageFile file s).
Proof.
  unfold handleImageFile.
  destruct (negb _); [apply inputOnly_showError|].
  destruct (_ <? _)%N; [apply inputOnly_showError|].
  unfold inputOnly; repeat split; reflexivity.
Qed.

Lemma inputOnly_toast (msg type : string) (s s' : State) :
  inputOnly s s' -> inputOnly s (showToast msg type s').
Proof. intros H. exact H. Qed.

Lemma inputOnly_onPaste (items : list Item) (s : State) :
  inputOnly s (onPaste items s).
Proof.
  induction items as [|item rest IH]; simpl; [apply inputOnly_refl|].
  destruct (JS.includes _ _); [|exact IH].
  destruct (getAsFile item) as [file|];
    [|apply inputOnly_toast, inputOnly_refl].
  apply inputOnly_toast, inputOnly_handleImageFile.
Qed.

Lemma inputOnly_step (s s' : State) (e : Event) :
  isInput e = true -> step s e = Some s' -> inputOnly s s'.
Proof.
  intros Hi Hs. destruct e; try discriminate Hi; simpl in Hs.
  - injection Hs as <-. apply inputOnly_onPaste.
  - injection Hs as <-. destruct files as [|f fs]; simpl;
      [apply inputOnly_refl|apply inputOnly_handleImageFile].
  - injection Hs as <-. destruct files as [|f fs]; simpl;
      [apply inputOnly_showError|].
    destruct (JS.startsWith _ _); [|apply inputOnly_showError].
    apply inputOnly_toast, inputOnly_handleImageFile.
  - destruct (nth_error _ _); [|discriminate]. injection Hs as <-.
    unfold inputOnly; repeat split; try reflexivity.
    intros e He. simpl. destruct e; try reflexivity. contradiction He.
    reflexivity.
Qed.

(** *** Files on their way to the service *)

Lemma pending_handleImageFile (file : File) (s : State) :
  Forall accepted (pendingReads s) ->
  Forall accepted (pendingReads (handleImageFile file s)).
Proof.
  intros H. unfold handleImageFile.
  destruct (JS.startsWith (ftype file) "image/") eqn:Ht; simpl; [|exact H].
  destruct (maxSize <? fsize file)%N eqn:Hs; simpl; [exact H|].
  apply Forall_app. split; [exact H|].
  constructor; [|constructor].
  split; [exact Ht|apply N.ltb_ge; exact Hs].
Qed.

Lemma pending_onPaste (items : list Item) (s : State) :
  Forall accepted (pendingReads s) ->
  Forall accepted (pendingReads (onPaste items s)).
Proof.
  intros H. induction items as [|item rest IH]; simpl; [exact H|].
  destruct (JS.includes _ _); [|exact IH].
  destruct (getAsFile item) as [file|]; [|exact H].
  exact (pending_handleImageFile file s H).
Qed.

Lemma Forall_remove_nth {A} (Q : A -> Prop) (n : nat) (l : list A) :
  Forall Q l -> Forall Q (remove_nth n l).
Proof.
  revert n. induction l as [|h t IH]; intros n H; destruct n; simpl;
    try constructor; inversion H; subst; try assumption.
  apply IH. assumption.
Qed.

Lemma Forall_nth_error {A} (Q : A -> Prop) (n : nat) (l : list A) (x : A) :
  Forall Q l -> nth_error l n = Some x -> Q x.
Proof.
  intros H E. apply nth_error_In in E.
  rewrite Forall_forall in H. exact (H x E).
Qed.

Lemma pending_step (s s' : State) (e : Event) :
  Forall accepted (pendingReads s) -> step s e = Some s' ->
  Forall accepted (pendingReads s').
Proof.
  intros H Hs. destruct e; simpl in Hs.
  - injection Hs as <-. apply pending_onPaste; exact H.
  - injection Hs as <-. destruct files as [|f fs]; simpl;
      [exact H|apply pending_handleImageFile; exact H].
  - injection Hs as <-. destruct files as [|f fs]; simpl; [exact H|].
    destruct (JS.startsWith _ _); [|exact H].
    exact (pending_handleImageFile f s H).
  - destruct (nth_error _ _) as [file|] eqn:E; [|discriminate].
    injection Hs as <-.
    assert (Hp : pendingReads
                   (onFileLoaded file
                      (set_pendingReads (remove_nth n (pendingReads s)) s))
                 = remove_nth n (pendingReads s)) by reflexivity.
    rewrite Hp. apply Forall_remove_nth; exact H.
  - destruct (nth_error _ _); [|discriminate]. injection Hs as <-.
    simpl. apply Forall_remove_nth; exact H.
  - destruct (outstanding _ _); [|discriminate]. injection Hs as <-.
    exact H.
  - destruct (outstanding _ _); [|discriminate]. injection Hs as <-.
    exact H.
  - destruct (nth_error _ _); [|discriminate]. injection Hs as <-.
    exact H.
  - destruct (pendingReveal s); [discriminate|]. injection Hs as <-.
    exact H.
  - destruct (pendingSuccessMsg s); [discriminate|]. injection Hs as <-.
    exact H.
  - injection Hs as <-. exact H.
Qed.

Lemma reachable_pending_accepted (s : State) :
  reachable s -> Forall accepted (pendingReads s).
Proof.
  induction 1 as [|s e s' _ IH Hs]; [constructor|].
  eapply pending_step; eassumption.
Qed.

(** X3. In every reachable state, each request ever issued carries the data
    URL of a file that passed both checks of [handleImageFile] (type
    starting with "image/", at most 10 MiB), and so does every file whose
    read is still pending: no rejected file is read or sent. *)
Theorem only_accepted_files_are_sent (s : State) :
  reachable s ->
  Forall (fun r => exists f, accepted f /\ r = processRequest (fileDataURL f))
         (requests s)
  /\ Forall accepted (pendingReads s).
Proof.
  intros Hr. split; [|apply reachable_pending_accepted; exact Hr].
  induction Hr as [|s e s' Hr IH Hs]; [constructor|].
  destruct (SessionFacts.step_requests s s' e Hs)
    as [-> | (n & file & _ & E & ->)]; [exact IH|].
  apply Forall_app. split; [exact IH|].
  constructor; [|constructor]. exists file. split; [|reflexivity].
  exact (Forall_nth_error accepted n _ file
           (reachable_pending_accepted s Hr) E).
Qed.

Lemma only_accepted_files_are_sent_witness :
  Forall (fun r => exists f, accepted f /\ r = processRequest (fileDataURL f))
         (requests (after (processingB ++ [FileChange [bigJpeg]])))
  /\ Forall accepted
       (pendingReads (after (processingB ++ [FileChange [bigJpeg]]))).
Proof.
  exact (only_accepted_files_are_sent _
           (SessionFacts.after_reachable
              (processingB ++ [FileChange [bigJpeg]]))).
Defined.

(** *** The original and the requests *)

Lemma latest_step (s s' : State) (e : Event) :
  (forall d, currentImageData s = Some d ->
             JS.truthy d = true
             /\ exists rs, requests s = (rs ++ [processRequest d])%list) ->
  step s e = Some s' ->
  forall d, currentImageData s' = Some d ->
            JS.truthy d = true
            /\ exists rs, requests s' = (rs ++ [processRequest d])%list.
Proof.
  intros H Hs.
  destruct (isInput e) eqn:Hi.
  { destruct (inputOnly_step s s' e Hi Hs) as (E1 & _ & _ & E4 & _).
    rewrite E1, E4. exact H. }
  destruct e; try discriminate Hi; simpl in Hs.
  - destruct (nth_error _ _) as [file|]; [|discriminate].
    injection Hs as <-.
    set (s0 := set_pendingReads (remove_nth n (pendingReads s)) s).
    assert (E1 : currentImageData (onFileLoaded file s0)
                 = Some (fileDataURL file)) by reflexivity.
    assert (E2 : requests (onFileLoaded file s0)
                 = (requests s ++ [processRequest (fileDataURL file)])%list)
      by reflexivity.
    rewrite E1, E2. intros d Hd. injection Hd as <-.
    split; [reflexivity|]. exists (requests s). reflexivity.
  - destruct (outstanding _ _); [|discriminate]. injection Hs as <-.
    exact H.
  - destruct (outstanding _ _); [|discriminate]. injection Hs as <-.
    exact H.
  - destruct (nth_error _ _); [|discriminate]. injection Hs as <-.
    exact H.
  - destruct (pendingReveal s); [discriminate|]. injection Hs as <-.
    exact H.
  - destruct (pendingSuccessMsg s); [discriminate|]. injection Hs as <-.
    exact H.
  - injection Hs as <-. intros d Hd. discriminate Hd.
Qed.

Lemma reachable_latest (s : State) :
  reachable s ->
  forall d, currentImageData s = Some d ->
            JS.truthy d = true
            /\ exists rs, requests s = (rs ++ [processRequest d])%list.
Proof.
  induction 1 as [|s e s' _ IH Hs]; [intros d Hd; discriminate Hd|].
  exact (latest_step s s' e IH Hs).
Qed.



(** *** Panels *)

Lemma panels_step (s s' : State) (e : Event) :
  (visible s PasteArea = negb (visible s OriginalImageContainer)
   /\ visible s PasteArea
      = match currentImageData s with None => true | Some _ => false end) ->
  step s e = Some s' ->
  visible s' PasteArea = negb (visible s' OriginalImageContainer)
  /\ visible s' PasteArea
     = match currentImageData s' with None => true | Some _ => false end.
Proof.
  intros H Hs.
  destruct (isInput e) eqn:Hi.
  { destruct (inputOnly_step s s' e Hi Hs) as (E1 & _ & _ & _ & _ & _ & _ & V).
    rewrite E1, !V by discriminate. exact H. }
  destruct e; try discriminate Hi; simpl in Hs.
  - destruct (nth_error _ _) as [file|]; [|discriminate].
    injection Hs as <-. split; reflexivity.
  - destruct (outstanding _ _); [|discriminate]. injection Hs as <-.
    exact H.
  - destruct (outstanding _ _); [|discriminate]. injection Hs as <-.
    exact H.
  - destruct (nth_error _ _); [|discriminate]. injection Hs as <-.
    exact H.
  - destruct (pendingReveal s); [discriminate|]. injection Hs as <-.
    exact H.
  - destruct (pendingSuccessMsg s); [discriminate|]. injection Hs as <-.
    exact H.
  - injection Hs as <-. split; reflexivity.
Qed.

(** X5. In every reachable state the upload area and the panel of the
    original image are never shown together nor hidden together, and the
    upload area is shown exactly when no image is loaded. *)
Theorem upload_area_iff_no_image (s : State) :
  reachable s ->
  visible s PasteArea = negb (visible s OriginalImageContainer)
  /\ (visible s PasteArea = true <-> currentImageData s = None).
Proof.
  intros Hr.
  assert (H : visible s PasteArea = negb (visible s OriginalImageContainer)
              /\ visible s PasteArea
                 = match currentImageData s with
                   | None => true | Some _ => false end).
  { induction Hr as [|s e s' _ IH Hs]; [split; reflexivity|].
    exact (panels_step s s' e IH Hs). }
  destruct H as [H1 H2]. split; [exact H1|].
  rewrite H2. destruct (currentImageData s); split; intros E;
    try reflexivity; discriminate E.
Qed.

Lemma upload_area_iff_no_image_witness :
  visible (after processingA) PasteArea = false
  /\ visible (after processingA) OriginalImageContainer = true
  /\ (visible (after processingA) PasteArea = true
      <-> currentImageData (after processingA) = None).
Proof.
  split; [reflexivity|]. split; [reflexivity|].
  exact (proj2 (upload_area_iff_no_image (after processingA)
                  (SessionFacts.after_reachable processingA))).
Defined.

Lemma work_step (s s' : State) (e : Event) :
  (visible s ProcessingContainer = true -> pendingWork s <> 0%nat) ->
  step s e = Some s' ->
  visible s' ProcessingContainer = true -> pendingWork s' <> 0%nat.
Proof.
  intros H Hs.
  destruct (isInput e) eqn:Hi.
  { destruct (inputOnly_step s s' e Hi Hs)
      as (_ & _ & _ & _ & E5 & E6 & E7 & V).
    unfold pendingWork. rewrite E5, E6, E7, V by discriminate. exact H. }
  destruct e; try discriminate Hi; simpl in Hs.
  - destruct (nth_error _ _) as [file|]; [|discriminate].
    injection Hs as <-. intros _. unfold pendingWork. simpl.
    rewrite length_app. simpl. lia.
  - destruct (outstanding _ _); [|discriminate]. injection Hs as <-.
    intros _. unfold pendingWork. simpl. rewrite length_app. simpl. lia.
  - destruct (outstanding _ _); [|discriminate]. injection Hs as <-.
    intros V. discriminate V.
  - destruct (nth_error _ _); [|discriminate]. injection Hs as <-.
    intros _. unfold pendingWork. simpl. lia.
  - destruct (pendingReveal s); [discriminate|]. injection Hs as <-.
    intros V. discriminate V.
  - destruct (pendingSuccessMsg s); [discriminate|]. injection Hs as <-.
    exact H.
  - injection Hs as <-. intros V. discriminate V.
Qed.

(** X6. In every reachable state, whenever the progress panel is shown (in
    particular in phase [Processing]) something is still pending for it: a
    request not yet resolved, a response being read, or a result waiting to
    be revealed.  The page is never left showing progress with nothing to
    end it. *)
Theorem processing_has_pending_work (s : State) :
  reachable s ->
  (visible s ProcessingContainer = true -> pendingWork s <> 0%nat)
  /\ (phase s = Processing ->
      inflight s <> [] \/ pendingBlobReads s <> [] \/ pendingReveal s <> 0%nat).
Proof.
  intros Hr.
  assert (H : visible s ProcessingContainer = true -> pendingWork s <> 0%nat).
  { induction Hr as [|s e s' _ IH Hs]; [intros V; discriminate V|].
    exact (work_step s s' e IH Hs). }
  split; [exact H|].
  intros Hp.
  assert (V : visible s ProcessingContainer = true).
  { unfold phase in Hp. destruct (currentImageData s); [|discriminate].
    destruct (visible s ProcessingContainer); [reflexivity|].
    destruct (visible s ProcessedImageContainer); [discriminate|].
    destruct (visible s ErrorAlert); discriminate. }
  specialize (H V). unfold pendingWork in H.
  destruct (inflight s); [|left; discriminate].
  destruct (pendingBlobReads s); [|right; left; discriminate].
  right; right. simpl in H. exact H.
Qed.

Lemma processing_has_pending_work_witness :
  phase (after (processingA ++ [AjaxSuccess 0 resultA])) = Processing
  /\ pendingWork (after (processingA ++ [AjaxSuccess 0 resultA])) <> 0%nat.
Proof.
  split; [reflexivity|].
  exact (proj1 (processing_has_pending_work _
                  (SessionFacts.after_reachable
                     (processingA ++ [AjaxSuccess 0 resultA])))
               eq_refl).
Defined.




(** *** Where the result comes from *)

Lemma In_remove_nth {A} (n : nat) (l : list A) (x : A) :
  In x (remove_nth n l) -> In x l.
Proof.
  revert n. induction l as [|h t IH]; intros n H; destruct n; simpl in *;
    try contradiction; try (right; exact H).
  destruct H as [H|H]; [left; exact H|right; exact (IH n H)].
Qed.

Lemma provenance_step (s s' : State) (e : Event) :
  step s e = Some s' ->
  (forall b, processedImageBlob s' = Some b ->
             processedImageBlob s = Some b \/ In b (responses [e]))
  /\ (forall b, In b (pendingBlobReads s') ->
                In b (pendingBlobReads s) \/ In b (responses [e]))
  /\ (forall u, processedImageBase64 s' = Some u ->
                processedImageBase64 s = Some u
                \/ exists b, In b (pendingBlobReads s) /\ u = blobDataURL b).
Proof.
  intros Hs.
  destruct (isInput e) eqn:Hi.
  { destruct (inputOnly_step s s' e Hi Hs) as (_ & E2 & E3 & _ & _ & E6 & _).
    rewrite E2, E3, E6. repeat split; intros; left; assumption. }
  destruct e; try discriminate Hi; simpl in Hs.
  - destruct (nth_error _ _) as [file|]; [|discriminate].
    injection Hs as <-. repeat split; intros; left; assumption.
  - destruct (outstanding _ _); [|discriminate]. injection Hs as <-.
    repeat split.
    + intros b Hb. simpl in Hb. injection Hb as <-. right. left. reflexivity.
    + intros b Hb. simpl in Hb. apply in_app_or in Hb.
      destruct Hb as [Hb|[Hb|[]]]; [left; exact Hb|right; left; exact Hb].
    + intros u Hu. left. exact Hu.
  - destruct (outstanding _ _); [|discriminate]. injection Hs as <-.
    repeat split; intros; left; assumption.
  - destruct (nth_error _ _) as [data|] eqn:E; [|discriminate].
    injection Hs as <-. repeat split.
    + intros b Hb. left. exact Hb.
    + intros b Hb. left. simpl in Hb. exact (In_remove_nth _ _ _ Hb).
    + intros u Hu. simpl in Hu. injection Hu as <-. right.
      exists data. split; [|reflexivity].
      eapply nth_error_In. exact E.
  - destruct (pendingReveal s); [discriminate|]. injection Hs as <-.
    repeat split; intros; left; assumption.
  - destruct (pendingSuccessMsg s); [discriminate|]. injection Hs as <-.
    repeat split; intros; left; assumption.
  - injection Hs as <-. repeat split.
    + intros b Hb. discriminate Hb.
    + intros b Hb. left. exact Hb.
    + intros u Hu. discriminate Hu.
Qed.

Lemma responses_cons (e : Event) (rest : list Event) (b : Blob) :
  In b (responses [e]) \/ In b (responses rest) ->
  In b (responses (e :: rest)).
Proof.
  intros H. destruct e; simpl in *;
    try (destruct H as [[]|H]; exact H).
  destruct H as [[H|[]]|H]; [left; exact H|right; exact H].
Qed.

Lemma provenance_run (es : list Event) :
  forall s0 s, run s0 es = Some s ->
  (forall b, processedImageBlob s = Some b ->
             processedImageBlob s0 = Some b \/ In b (responses es))
  /\ (forall b, In b (pendingBlobReads s) ->
                In b (pendingBlobReads s0) \/ In b (responses es))
  /\ (forall u, processedImageBase64 s = Some u ->
                processedImageBase64 s0 = Some u
                \/ exists b, (In b (pendingBlobReads s0) \/ In b (responses es))
                             /\ u = blobDataURL b).
Proof.
  induction es as [|e rest IH]; intros s0 s Hrun; simpl in Hrun.
  - injection Hrun as <-. repeat split; intros; left; assumption.
  - destruct (step s0 e) as [s1|] eqn:E; [|discriminate].
    destruct (provenance_step s0 s1 e E) as (A1 & A2 & A3).
    destruct (IH s1 s Hrun) as (B1 & B2 & B3).
    repeat split.
    + intros b Hb. destruct (B1 b Hb) as [H|H].
      * destruct (A1 b H) as [H'|H']; [left; exact H'|].
        right. apply responses_cons. left. exact H'.
      * right. apply responses_cons. right. exact H.
    + intros b Hb. destruct (B2 b Hb) as [H|H].
      * destruct (A2 b H) as [H'|H']; [left; exact H'|].
        right. apply responses_cons. left. exact H'.
      * right. apply responses_cons. right. exact H.
    + intros u Hu. destruct (B3 u Hu) as [H|(b & [H|H] & ->)].
      * destruct (A3 u H) as [H'|(b & H' & ->)]; [left; exact H'|].
        right. exists b. split; [left; exact H'|reflexivity].
      * right. exists b. split; [|reflexivity].
        destruct (A2 b H) as [H'|H']; [left; exact H'|].
        right. apply responses_cons. left. exact H'.
      * right. exists b. split; [|reflexivity].
        right. apply responses_cons. right. exact H.
Qed.

(** X8. After any run from the loaded page, the stored result blob is one
    of the responses the success callback received during the run, and the
    stored result data URL is the data URL of one of them: the result is
    never the original and never anything the page made up. *)
Theorem result_comes_from_a_response (es : list Event) (s : State) :
  run init es = Some s ->
  (forall b, processedImageBlob s = Some b -> In b (responses es))
  /\ (forall u, processedImageBase64 s = Some u ->
                exists b, In b (responses es) /\ u = blobDataURL b).
Proof.
  intros Hrun. destruct (provenance_run es init s Hrun) as (H1 & _ & H3).
  split.
  - intros b Hb. destruct (H1 b Hb) as [H|H]; [discriminate H|exact H].
  - intros u Hu. destruct (H3 u Hu) as [H|(b & [[]|H] & ->)];
      [discriminate H|].
    exists b. split; [exact H|reflexivity].
Qed.

Lemma result_comes_from_a_response_witness :
  exists s,
    run init resultShownA = Some s
    /\ (forall b, processedImageBlob s = Some b -> In b (responses resultShownA))
    /\ (forall u, processedImageBase64 s = Some u ->
                  exists b, In b (responses resultShownA) /\ u = blobDataURL b).
Proof.
  destruct (run init resultShownA) as [s|] eqn:E.
  - exists s. split; [reflexivity|].
    exact (result_comes_from_a_response resultShownA s E).
  - exfalso. vm_compute in E. discriminate E.
Defined.

End SessionInvariants.

(** ** Download, leaving the page, messages *)

Module PageFacts.
Import Browser Session Samples Page.

(** *** Image formats *)

Lemma prefix_app (p s : string) :
  prefix p s = true -> exists r, s = p ++ r.
Proof.
  revert s. induction p as [|a p IH]; intros s H.
  - exists s. reflexivity.
  - destruct s as [|b s]; simpl in H; [discriminate|].
    destruct (ascii_dec a b) as [<-|]; [|discriminate].
    destruct (IH s H) as [r ->]. exists r. reflexivity.
Qed.

Lemma startsWith_app (p r : string) : JS.startsWith (p ++ r) p = true.
Proof.
  unfold JS.startsWith. induction p as [|a p IH]; simpl.
  - destruct r; reflexivity.
  - destruct (ascii_dec a a) as [_|N]; [exact IH|contradiction N; reflexivity].
Qed.

(** X9. [getImageFormat] names the format of a data URL from its MIME
    type: for a type starting with image/jpeg, image/png, image/gif,
    image/webp, image/svg or image/bmp it returns JPEG, PNG, GIF, WEBP, SVG
    or BMP, whatever follows in the URL. *)
Theorem getImageFormat_of_data_url
        (type payload prefix label : string) :
  In (prefix, label)
     [("image/jpeg", "JPEG"); ("image/png", "PNG"); ("image/gif", "GIF");
      ("image/webp", "WEBP"); ("image/svg", "SVG"); ("image/bmp", "BMP")] ->
  JS.startsWith type prefix = true ->
  getImageFormat (dataURL type payload) = label.
Proof.
  intros Hin Hp. unfold JS.startsWith in Hp.
  destruct (prefix_app prefix type Hp) as [r ->].
  simpl in Hin.
  set (rest := r ++ ";base64," ++ payload).
  destruct Hin as [E|[E|[E|[E|[E|[E|[]]]]]]]; injection E as <- <-.
  - change (getImageFormat ("data:image/jpeg" ++ rest) = "JPEG").
    unfold getImageFormat. rewrite startsWith_app. reflexivity.
  - change (getImageFormat ("data:image/png" ++ rest) = "PNG").
    unfold getImageFormat. rewrite startsWith_app. reflexivity.
  - change (getImageFormat ("data:image/gif" ++ rest) = "GIF").
    unfold getImageFormat. rewrite startsWith_app. reflexivity.
  - change (getImageFormat ("data:image/webp" ++ rest) = "WEBP").
    unfold getImageFormat. rewrite startsWith_app. reflexivity.
  - change (getImageFormat ("data:image/svg" ++ rest) = "SVG").
    unfold getImageFormat. rewrite startsWith_app. reflexivity.
  - change (getImageFormat ("data:image/bmp" ++ rest) = "BMP").
    unfold getImageFormat. rewrite startsWith_app. reflexivity.
Qed.

Lemma getImageFormat_of_data_url_witness :
  getImageFormat (fileDataURL fileA) = "PNG".
Proof.
  exact (getImageFormat_of_data_url "image/png" "QUFB" "image/png" "PNG"
           (or_intror (or_introl eq_refl)) eq_refl).
Defined.

Lemma getImageFormat_of_type (type : string) :
  JS.startsWith type "image/" = true -> getImageFormat type = "Unknown".
Proof.
  intros H. unfold JS.startsWith in H.
  destruct (prefix_app "image/" type H) as [r ->]. reflexivity.
Qed.

(** X10. The current script passes the file's MIME type, not the data URL,
    to [getImageFormat]: in every reachable state, when a read resolves,
    the info line under the original reads name, size and the format
    "Unknown", whatever the image. *)
Theorem info_line_format_is_unknown (s s' : State) (n : nat) :
  reachable s ->
  step s (FileLoaded n) = Some s' ->
  exists file,
    nth_error (pendingReads s) n = Some file
    /\ text s' OriginalImageSrc = fileDataURL file
    /\ text s' ImageInfo
       = fname file ++ " • " ++ Format.formatFileSize (fsize file)
         ++ " • Unknown".
Proof.
  intros Hr Hs. simpl in Hs.
  destruct (nth_error (pendingReads s) n) as [file|] eqn:E; [|discriminate].
  injection Hs as <-. exists file. split; [reflexivity|].
  split; [reflexivity|].
  destruct (SessionInvariants.Forall_nth_error accepted n _ file
              (SessionInvariants.reachable_pending_accepted s Hr) E)
    as [Ht _].
  set (s0 := set_pendingReads (remove_nth n (pendingReads s)) s).
  assert (Et : text (onFileLoaded file s0) ImageInfo
               = fname file ++ " • " ++ Format.formatFileSize (fsize file)
                 ++ " • " ++ getImageFormat (ftype file)) by reflexivity.
  rewrite Et, (getImageFormat_of_type (ftype file) Ht). reflexivity.
Qed.

Lemma info_line_format_is_unknown_witness :
  exists s' file,
    step (after [FileChange [fileA]]) (FileLoaded 0) = Some s'
    /\ nth_error (pendingReads (after [FileChange [fileA]])) 0 = Some file
    /\ text s' OriginalImageSrc = fileDataURL file
    /\ text s' ImageInfo
       = fname file ++ " • " ++ Format.formatFileSize (fsize file)
         ++ " • Unknown".
Proof.
  destruct (step (after [FileChange [fileA]]) (FileLoaded 0))
    as [s'|] eqn:E.
  - destruct (info_line_format_is_unknown _ s' 0
                (SessionFacts.after_reachable [FileChange [fileA]]) E)
      as (file & H).
    exists s', file. split; [reflexivity|exact H].
  - exfalso. vm_compute in E. discriminate E.
Defined.

(** *** Processing errors *)

Lemma or_else_truthy (a : option string) (b : string) :
  b <> "" -> JS.or_else a b <> "".
Proof.
  intros Hb. unfold JS.or_else, JS.truthy.
  destruct a as [x|]; [|exact Hb].
  destruct (x =? "") eqn:E; simpl; [exact Hb|].
  apply String.eqb_neq. exact E.
Qed.

(** X11. [handleProcessingError] always shows a non-empty message.  It is
    one of six fixed texts, except for a response with status 400 (and no
    timeout) whose JSON body carries a non-empty [detail]: that detail is
    shown verbatim.  A timeout takes precedence over the HTTP status. *)
Theorem processing_error_message_classified (xhr : Xhr) (status : string) :
  processingErrorMessage xhr status <> ""
  /\ (In (processingErrorMessage xhr status)
         [msgDefault; msgTimeout; msgPayload; msgUnsupported; msgNetwork;
          msgServer]
      \/ (status <> "timeout" /\ xstatus xhr = 400%N
          /\ responseDetail xhr = Some (Some (processingErrorMessage xhr status))))
  /\ (status = "timeout" -> processingErrorMessage xhr status = msgTimeout)
  /\ (status <> "timeout" -> xstatus xhr = 400%N ->
      responseDetail xhr = None ->
      processingErrorMessage xhr status = msgUnsupported).
Proof.
  split; [|split; [|split]].
  - unfold processingErrorMessage.
    destruct (status =? "timeout"); [discriminate|].
    destruct (xstatus xhr =? 413)%N; [discriminate|].
    destruct (xstatus xhr =? 400)%N.
    { destruct (responseDetail xhr); [|discriminate].
      apply or_else_truthy. discriminate. }
    destruct (xstatus xhr =? 0)%N; [discriminate|].
    destruct (500 <=? xstatus xhr)%N; discriminate.
  - unfold processingErrorMessage.
    destruct (status =? "timeout") eqn:Et; [simpl; tauto|].
    apply String.eqb_neq in Et.
    destruct (xstatus xhr =? 413)%N; [simpl; tauto|].
    destruct (xstatus xhr =? 400)%N eqn:E400.
    { apply N.eqb_eq in E400.
      destruct (responseDetail xhr) as [[d|]|]; [|simpl; tauto|simpl; tauto].
      unfold JS.or_else, JS.truthy.
      destruct (d =? ""); simpl; [tauto|].
      right. repeat split; assumption. }
    destruct (xstatus xhr =? 0)%N; [simpl; tauto|].
    destruct (500 <=? xstatus xhr)%N; simpl; tauto.
  - intros ->. reflexivity.
  - intros Hn E400 Ed. unfold processingErrorMessage.
    apply String.eqb_neq in Hn. rewrite Hn, E400, Ed. reflexivity.
Qed.

(** *** Time stamps *)

Lemma length_slice0 (n : nat) (s : string) :
  String.length (JS.slice0 n s) = Nat.min n (String.length s).
Proof.
  unfold JS.slice0. revert s.
  induction n as [|n IH]; intros s; destruct s as [|c s]; simpl;
    try reflexivity.
  rewrite IH. reflexivity.
Qed.

Lemma length_replace (s : string) :
  String.length (JS.replace_colon_dot s) = String.length s.
Proof. induction s as [|c s IH]; simpl; [reflexivity|rewrite IH; reflexivity]. Qed.

Lemma occurs_replace (s : string) :
  occurs ":" (JS.replace_colon_dot s) = false
  /\ occurs "." (JS.replace_colon_dot s) = false.
Proof.
  induction s as [|c s [IH1 IH2]]; simpl; [split; reflexivity|].
  rewrite IH1, IH2.
  destruct (Ascii.eqb c ":") eqn:E1; simpl; [split; reflexivity|].
  destruct (Ascii.eqb c ".") eqn:E2; simpl; [split; reflexivity|].
  rewrite E1, E2. split; reflexivity.
Qed.

Lemma replace_app (a b : string) :
  JS.replace_colon_dot (a ++ b)
  = JS.replace_colon_dot a ++ JS.replace_colon_dot b.
Proof. induction a as [|c a IH]; simpl; [reflexivity|rewrite IH; reflexivity]. Qed.

Lemma replace_clean (a : string) :
  occurs ":" a = false -> occurs "." a = false ->
  JS.replace_colon_dot a = a.
Proof.
  induction a as [|c a IH]; simpl; [reflexivity|].
  intros H1 H2. apply orb_false_iff in H1, H2.
  destruct H1 as [E1 H1], H2 as [E2 H2].
  rewrite E1, E2, (IH H1 H2). reflexivity.
Qed.

Lemma slice0_app (a b : string) (n : nat) :
  JS.slice0 (String.length a + n) (a ++ b) = a ++ JS.slice0 n b.
Proof.
  unfold JS.slice0. induction a as [|c a IH]; simpl; [reflexivity|].
  rewrite IH. reflexivity.
Qed.

Lemma slice0_0 (s : string) : JS.slice0 0 s = "".
Proof. destruct s; reflexivity. Qed.

Lemma append_empty (s : string) : s ++ "" = s.
Proof. induction s as [|c s IH]; simpl; [reflexivity|rewrite IH; reflexivity]. Qed.

(** X12. The time stamp put in file names has at most 19 characters
    (exactly 19 for an ISO string at least that long) and contains neither
    a colon nor a dot, whatever the clock returns. *)
Theorem stamp_is_name_safe (iso : string) :
  String.length (stamp iso) = Nat.min 19 (String.length iso)
  /\ occurs ":" (stamp iso) = false
  /\ occurs "." (stamp iso) = false.
Proof.
  unfold stamp. rewrite length_replace, length_slice0.
  split; [reflexivity|apply occurs_replace].
Qed.

(** X13. For a clock string of the ISO shape, date [T] hh [:] mm [:] ss
    and then anything (milliseconds, zone), the stamp is the date, [T]
    and hh-mm-ss: the date is kept, the colons become dashes and the rest
    is cut off. *)
Theorem stamp_of_iso_time (date hh mm ss rest : string) :
  String.length date = 10 -> String.length hh = 2 ->
  String.length mm = 2 -> String.length ss = 2 ->
  occurs ":" (date ++ hh ++ mm ++ ss) = false ->
  occurs "." (date ++ hh ++ mm ++ ss) = false ->
  stamp (date ++ "T" ++ hh ++ ":" ++ mm ++ ":" ++ ss ++ rest)
  = date ++ "T" ++ hh ++ "-" ++ mm ++ "-" ++ ss.
Proof.
  intros Ld Lh Lm Ls Hc Hd.
  assert (Hsl : JS.slice0 19 (date ++ "T" ++ hh ++ ":" ++ mm ++ ":" ++ ss ++ rest)
                = date ++ "T" ++ hh ++ ":" ++ mm ++ ":" ++ ss).
  { assert (Hk : forall a b k n, String.length a = k ->
                   JS.slice0 (k + n) (a ++ b) = a ++ JS.slice0 n b)
      by (intros a b k n <-; apply slice0_app).
    rewrite (Hk date _ 10 9 Ld).
    change (JS.slice0 9 ("T" ++ hh ++ ":" ++ mm ++ ":" ++ ss ++ rest))
      with ("T" ++ JS.slice0 (2 + 6) (hh ++ ":" ++ mm ++ ":" ++ ss ++ rest)).
    rewrite (Hk hh _ 2 6 Lh).
    change (JS.slice0 6 (":" ++ mm ++ ":" ++ ss ++ rest))
      with (":" ++ JS.slice0 (2 + 3) (mm ++ ":" ++ ss ++ rest)).
    rewrite (Hk mm _ 2 3 Lm).
    change (JS.slice0 3 (":" ++ ss ++ rest))
      with (":" ++ JS.slice0 (2 + 0) (ss ++ rest)).
    rewrite (Hk ss _ 2 0 Ls), slice0_0, append_empty. reflexivity. }
  unfold stamp. rewrite Hsl.
  assert (Hoc : forall c a b, occurs c (a ++ b) = false ->
                              occurs c a = false /\ occurs c b = false).
  { intros c a b. induction a as [|x a IH]; simpl; [intros H; split; [reflexivity|exact H]|].
    intros H. apply orb_false_iff in H. destruct H as [E H].
    destruct (IH H) as [H1 H2]. rewrite E, H1. split; [reflexivity|exact H2]. }
  destruct (Hoc _ _ _ Hc) as [C1 Hc2]. destruct (Hoc _ _ _ Hc2) as [C2 Hc3].
  destruct (Hoc _ _ _ Hc3) as [C3 C4].
  destruct (Hoc _ _ _ Hd) as [D1 Hd2]. destruct (Hoc _ _ _ Hd2) as [D2 Hd3].
  destruct (Hoc _ _ _ Hd3) as [D3 D4].
  rewrite replace_app, (replace_clean date C1 D1).
  change (JS.replace_colon_dot ("T" ++ hh ++ ":" ++ mm ++ ":" ++ ss))
    with ("T" ++ JS.replace_colon_dot (hh ++ ":" ++ mm ++ ":" ++ ss)).
  rewrite replace_app, (replace_clean hh C2 D2).
  change (JS.replace_colon_dot (":" ++ mm ++ ":" ++ ss))
    with ("-" ++ JS.replace_colon_dot (mm ++ ":" ++ ss)).
  rewrite replace_app, (replace_clean mm C3 D3).
  change (JS.replace_colon_dot (":" ++ ss))
    with ("-" ++ JS.replace_colon_dot ss).
  rewrite (replace_clean ss C4 D4). reflexivity.
Qed.

Lemma stamp_of_iso_time_witness :
  stamp "2024-01-02T03:04:05.678Z" = "2024-01-02T03-04-05".
Proof.
  exact (stamp_of_iso_time "2024-01-02" "03" "04" "05" ".678Z"
           eq_refl eq_refl eq_refl eq_refl eq_refl eq_refl).
Defined.

(** *** Download *)

(** X14. After any run from the loaded page, [downloadImage] leaves the
    original, the result and the requests as they are.  When it saves a
    file, the file is the stored result blob, one of the responses received
    during the run, under the name docuscan_enhanced_, the stamp and .jpg
    whatever the blob's type.  When it saves nothing, either no result is
    stored or a statement threw, and the matching error is shown. *)
Theorem download_saves_the_stored_response
        (es : list Event) (s : State) (iso : string) (throws : bool) :
  run init es = Some s ->
  currentImageData (fst (downloadImage iso throws s)) = currentImageData s
  /\ processedImageBlob (fst (downloadImage iso throws s))
     = processedImageBlob s
  /\ requests (fst (downloadImage iso throws s)) = requests s
  /\ match snd (downloadImage iso throws s) with
     | Some d =>
         throws = false
         /\ processedImageBlob s = Some (dblob d)
         /\ In (dblob d) (responses es)
         /\ dname d = "docuscan_enhanced_" ++ stamp iso ++ ".jpg"
     | None =>
         (processedImageBlob s = None
          /\ error (fst (downloadImage iso throws s))
             = Some msgNothingToDownload)
         \/ (throws = true
             /\ error (fst (downloadImage iso throws s))
                = Some msgDownloadFailed)
     end.
Proof.
  intros Hrun.
  destruct (SessionInvariants.provenance_run es init s Hrun) as (H1 & _ & _).
  unfold downloadImage.
  destruct (processedImageBlob s) as [blob|] eqn:Eb.
  - destruct throws; simpl.
    + repeat split; try assumption. right. split; reflexivity.
    + repeat split; try assumption.
      destruct (H1 blob eq_refl) as [H|H]; [discriminate H|exact H].
  - simpl. repeat split; try assumption. left. split; reflexivity.
Qed.

Lemma download_saves_the_stored_response_witness :
  exists s,
    run init resultShownA = Some s
    /\ match snd (downloadImage "2024-01-02T03:04:05.678Z" false s) with
       | Some d =>
           false = false
           /\ processedImageBlob s = Some (dblob d)
           /\ In (dblob d) (responses resultShownA)
           /\ dname d
              = "docuscan_enhanced_" ++ stamp "2024-01-02T03:04:05.678Z"
                ++ ".jpg"
       | None =>
           (processedImageBlob s = None
            /\ error (fst (downloadImage "2024-01-02T03:04:05.678Z" false s))
               = Some msgNothingToDownload)
           \/ (false = true
               /\ error (fst (downloadImage "2024-01-02T03:04:05.678Z" false s))
                  = Some msgDownloadFailed)
       end.
Proof.
  destruct (run init resultShownA) as [s|] eqn:E.
  - exists s. split; [reflexivity|].
    exact (proj2 (proj2 (proj2
             (download_saves_the_stored_response resultShownA s
                "2024-01-02T03:04:05.678Z" false E)))).
  - exfalso. vm_compute in E. discriminate E.
Defined.

(** *** Leaving the page *)

Lemma keeps_result_step (s s' : State) (e : Event) :
  resets [e] = false -> step s e = Some s' ->
  processedImageBlob s <> None -> processedImageBlob s' <> None.
Proof.
  intros Hn Hs Hb.
  destruct (isInput e) eqn:Hi.
  { destruct (SessionInvariants.inputOnly_step s s' e Hi Hs) as (_ & E2 & _).
    rewrite E2. exact Hb. }
  destruct e; try discriminate Hi; try discriminate Hn; simpl in Hs.
  - destruct (nth_error _ _) as [file|]; [|discriminate].
    injection Hs as <-. exact Hb.
  - destruct (outstanding _ _); [|discriminate]. injection Hs as <-.
    discriminate.
  - destruct (outstanding _ _); [|discriminate]. injection Hs as <-.
    exact Hb.
  - destruct (nth_error _ _); [|discriminate]. injection Hs as <-.
    exact Hb.
  - destruct (pendingReveal s); [discriminate|]. injection Hs as <-.
    exact Hb.
  - destruct (pendingSuccessMsg s); [discriminate|]. injection Hs as <-.
    exact Hb.
Qed.

Lemma resets_cons (e : Event) (rest : list Event) :
  resets (e :: rest) = false -> resets [e] = false /\ resets rest = false.
Proof.
  destruct e; simpl; intros H; try discriminate H;
    split; try reflexivity; assumption.
Qed.

(** X15. In every reachable state the page asks before leaving exactly when
    an image is loaded and no result is stored.  Once a result is stored,
    no run without a reset makes it ask again: not a new acquisition, not
    its processing, not its failure. *)
Theorem leave_prompt_rule (s : State) :
  reachable s ->
  (beforeUnloadAsks s = true
   <-> currentImageData s <> None /\ processedImageBlob s = None)
  /\ (forall es s',
        resets es = false -> run s es = Some s' ->
        processedImageBlob s <> None -> beforeUnloadAsks s' = false).
Proof.
  intros Hr. split.
  - unfold beforeUnloadAsks.
    destruct (currentImageData s) as [d|] eqn:Ed.
    + destruct (SessionInvariants.reachable_latest s Hr d Ed) as [Ht _].
      destruct (processedImageBlob s); rewrite ?Ht; split.
      * discriminate.
      * intros [_ H]. discriminate H.
      * intros _. split; [discriminate|reflexivity].
      * reflexivity.
    + split; [discriminate|]. intros [H _]. contradiction H. reflexivity.
  - intros es. clear Hr. revert s.
    induction es as [|e rest IH]; intros s s' Hn Hrun Hb; simpl in Hrun.
    + injection Hrun as <-. unfold beforeUnloadAsks.
      destruct (currentImageData s); [|reflexivity].
      destruct (processedImageBlob s); [reflexivity|contradiction Hb].
      reflexivity.
    + destruct (step s e) as [s1|] eqn:E; [|discriminate].
      destruct (resets_cons e rest Hn) as [Hn1 Hn2].
      exact (IH s1 s' Hn2 Hrun (keeps_result_step s s1 e Hn1 E Hb)).
Qed.

Lemma leave_prompt_rule_witness :
  (beforeUnloadAsks (after processingA) = true
   <-> currentImageData (after processingA) <> None
       /\ processedImageBlob (after processingA) = None)
  /\ beforeUnloadAsks (after processingA) = true.
Proof.
  split; [|reflexivity].
  exact (proj1 (leave_prompt_rule (after processingA)
                  (SessionFacts.after_reachable processingA))).
Defined.

(** *** Toasts *)

Lemma toasts_handleImageFile (file : File) (s : State) :
  toasts (handleImageFile file s) = toasts s.
Proof.
  unfold handleImageFile. destruct (negb _); [reflexivity|].
  destruct (_ <? _)%N; reflexivity.
Qed.

Lemma toasts_step (s s' : State) (e : Event) :
  step s e = Some s' ->
  toasts s' = toasts s
  \/ exists m t, toasts s' = (toasts s ++ [(m, t)])%list /\ icons t <> None.
Proof.
  intros Hs. destruct e; simpl in Hs.
  - injection Hs as <-.
    induction items as [|item rest IH]; simpl; [left; reflexivity|].
    destruct (JS.includes _ _); [|exact IH].
    destruct (getAsFile item) as [file|]; right; do 2 eexists;
      (split; [simpl; rewrite ?toasts_handleImageFile; reflexivity
              |discriminate]).
  - injection Hs as <-. left. destruct files as [|f fs]; simpl;
      [reflexivity|apply toasts_handleImageFile].
  - injection Hs as <-. destruct files as [|f fs]; simpl;
      [left; reflexivity|].
    destruct (JS.startsWith _ _); [|left; reflexivity].
    right. do 2 eexists.
    split; [simpl; rewrite toasts_handleImageFile; reflexivity|discriminate].
  - destruct (nth_error _ _) as [file|]; [|discriminate].
    injection Hs as <-. left. reflexivity.
  - destruct (nth_error _ _); [|discriminate]. injection Hs as <-.
    left. reflexivity.
  - destruct (outstanding _ _); [|discriminate]. injection Hs as <-.
    left. reflexivity.
  - destruct (outstanding _ _); [|discriminate]. injection Hs as <-.
    left. reflexivity.
  - destruct (nth_error _ _); [|discriminate]. injection Hs as <-.
    left. reflexivity.
  - destruct (pendingReveal s); [discriminate|]. injection Hs as <-.
    left. reflexivity.
  - destruct (pendingSuccessMsg s); [discriminate|]. injection Hs as <-.
    left. reflexivity.
  - injection Hs as <-. right. do 2 eexists.
    split; [reflexivity|discriminate].
Qed.

(** X16. Every toast the event handlers and [copyImageAsFile] show has one
    of the four types [showToast] has an icon for: no toast is ever
    rendered with the text "undefined" in place of its icon. *)
Theorem toasts_have_icons (s : State) :
  reachable s ->
  Forall (fun t => icons (snd t) <> None) (toasts s)
  /\ (forall r, Forall (fun t => icons (snd t) <> None)
                      (Clipboard.copyToasts r)).
Proof.
  intros Hr. split.
  - induction Hr as [|s e s' _ IH Hs]; [constructor|].
    destruct (toasts_step s s' e Hs) as [-> | (m & t & -> & Hi)]; [exact IH|].
    apply Forall_app. split; [exact IH|].
    constructor; [exact Hi|constructor].
  - intros r. destruct r; simpl; repeat constructor; discriminate.
Qed.

Lemma toasts_have_icons_witness :
  Forall (fun t => icons (snd t) <> None)
         (toasts (after [Drop [bigText]; Drop [fileA]; Reset])).
Proof.
  exact (proj1 (toasts_have_icons _
                  (SessionFacts.after_reachable
                     [Drop [bigText]; Drop [fileA]; Reset]))).
Defined.

End PageFacts.

(** ** More on the clipboard export *)

Module ClipboardMore.
Import Browser Clipboard Samples Page.

(** *** File extensions *)

Lemma split_pieces (sep : ascii) (s : string) :
  Forall (fun piece => occurs sep piece = false) (JS.split sep s).
Proof.
  induction s as [|c r IH]; simpl; [repeat constructor|].
  destruct (Ascii.eqb c sep) eqn:E; [constructor; [reflexivity|exact IH]|].
  destruct (JS.split sep r) as [|h t]; [repeat constructor; simpl; rewrite E; reflexivity|].
  inversion IH as [|? ? Hh Ht]; subst.
  constructor; [simpl; rewrite E, Hh; reflexivity|exact Ht].
Qed.

Lemma split_clean (sep : ascii) (s : string) :
  occurs sep s = false -> JS.split sep s = [s].
Proof.
  induction s as [|c r IH]; simpl; [reflexivity|].
  intros H. apply orb_false_iff in H. destruct H as [E H].
  rewrite E, (IH H). reflexivity.
Qed.

Lemma split_app (sep : ascii) (a b : string) :
  occurs sep a = false ->
  JS.split sep (a ++ String sep b) = a :: JS.split sep b.
Proof.
  induction a as [|c a IH]; simpl.
  - intros _. rewrite Ascii.eqb_refl. reflexivity.
  - intros H. apply orb_false_iff in H. destruct H as [E H].
    rewrite E, (IH H). reflexivity.
Qed.

Lemma append_assoc (a b c : string) : (a ++ b) ++ c = a ++ b ++ c.
Proof. induction a as [|x a IH]; simpl; [reflexivity|rewrite IH; reflexivity]. Qed.

Lemma occurs_app (c : ascii) (a b : string) :
  occurs c (a ++ b) = (occurs c a || occurs c b)%bool.
Proof.
  induction a as [|x a IH]; simpl; [reflexivity|].
  rewrite IH, orb_assoc. reflexivity.
Qed.

(** X17. The extension computed from a MIME type is never empty and never
    contains a slash; a type with no slash at all gets png. *)
Theorem extensionOf_is_usable (mimeType : string) :
  extensionOf mimeType <> ""
  /\ occurs "/" (extensionOf mimeType) = false
  /\ (occurs "/" mimeType = false -> extensionOf mimeType = "png").
Proof.
  unfold extensionOf, JS.or_else, JS.truthy.
  split; [|split].
  - destruct (nth_error _ 1) as [x|]; [|discriminate].
    destruct (x =? "") eqn:E; simpl; [discriminate|].
    apply String.eqb_neq. exact E.
  - destruct (nth_error _ 1) as [x|] eqn:En; [|reflexivity].
    destruct (negb (x =? "")); [|reflexivity].
    pose proof (split_pieces "/" mimeType) as H.
    rewrite Forall_forall in H. apply H. eapply nth_error_In. exact En.
  - intros H. rewrite (split_clean "/" mimeType H). reflexivity.
Qed.

(** X18. For a MIME type of the form type/subtype, with no slash inside
    either part and a non-empty subtype, the extension is the subtype. *)
Theorem extensionOf_is_the_subtype (type subtype : string) :
  occurs "/" type = false ->
  occurs "/" subtype = false ->
  subtype <> "" ->
  extensionOf (type ++ "/" ++ subtype) = subtype.
Proof.
  intros Ht Hs Hne. unfold extensionOf.
  change (type ++ "/" ++ subtype) with (type ++ String "/" subtype).
  rewrite (split_app "/" type subtype Ht), (split_clean "/" subtype Hs).
  simpl. unfold JS.truthy.
  apply String.eqb_neq in Hne. rewrite Hne. reflexivity.
Qed.

Lemma extensionOf_is_the_subtype_witness :
  extensionOf "image/svg+xml" = "svg+xml".
Proof.
  exact (extensionOf_is_the_subtype "image" "svg+xml" eq_refl eq_refl
           ltac:(discriminate)).
Defined.

Section Names.
Variable P : Platform.

Lemma prefixOf_clean (imageType : string) :
  occurs "." (prefixOf imageType) = false.
Proof.
  unfold prefixOf. destruct (imageType =? "processed"); [reflexivity|].
  destruct (imageType =? "original"); reflexivity.
Qed.

(** X19. In the file name reported by [copyImageAsFile], the text after the
    last dot is exactly the extension computed from the final MIME type,
    whenever that extension has no dot of its own: neither the prefix nor
    the time stamp can add one. *)
Theorem reported_extension_is_extensionOf (imageType mimeType : string) :
  occurs "." (extensionOf mimeType) = false ->
  reportedExtension (fileName P imageType mimeType) = extensionOf mimeType.
Proof.
  intros He. unfold reportedExtension, fileName.
  set (ext := extensionOf mimeType) in *.
  assert (Ha : occurs "." (prefixOf imageType ++ "_" ++ timestamp P) = false).
  { rewrite occurs_app, prefixOf_clean. simpl.
    exact (proj2 (PageFacts.occurs_replace (JS.slice0 19 (nowISO P)))). }
  assert (Eq : prefixOf imageType ++ "_" ++ timestamp P ++ "." ++ ext
               = (prefixOf imageType ++ "_" ++ timestamp P) ++ String "." ext).
  { symmetry.
    exact (append_assoc (prefixOf imageType) ("_" ++ timestamp P)
             (String "." ext)). }
  rewrite Eq, (split_app "." _ ext Ha), (split_clean "." ext He).
  reflexivity.
Qed.

End Names.

Lemma reported_extension_is_extensionOf_witness :
  reportedExtension (fileName pngOnly "original" "image/webp") = "webp".
Proof.
  exact (reported_extension_is_extensionOf pngOnly "original" "image/webp"
           eq_refl).
Defined.

(** *** The fallback chain for any blob and any requested type *)

Section AnyChain.
Variable P : Platform.
Variable blob : Blob.
Variable mimeType : string.

Lemma sweep_shape (types : list string) :
  exists ls ok,
    sweep P blob mimeType types = (ls, Done ok)
    /\ Forall (fun a => exists acc, a = ClipboardWrite (btype blob) blob acc) ls
    /\ (ls <> [] ->
        In (btype blob) types /\ btype blob <> mimeType
        /\ btype blob <> "image/png")
    /\ (if ok : bool then
          exists pre, ls = (pre ++ [ClipboardWrite (btype blob) blob true])%list
                      /\ written pre = None
        else written ls = None)
    /\ List.length ls <= count_occ string_dec types (btype blob).
Proof.
  induction types as [|type rest IH].
  - exists [], false. split; [reflexivity|]. split; [constructor|].
    split; [intros H; contradiction H; reflexivity|].
    split; [reflexivity|simpl; lia].
  - destruct IH as (ls & ok & Es & Hall & Hne & Hok & Hlen).
    assert (Hkeep : sweep P blob mimeType (type :: rest)
                    = sweep P blob mimeType rest ->
                    exists ls ok,
                      sweep P blob mimeType (type :: rest) = (ls, Done ok)
                      /\ Forall (fun a => exists acc,
                                   a = ClipboardWrite (btype blob) blob acc) ls
                      /\ (ls <> [] ->
                          In (btype blob) (type :: rest)
                          /\ btype blob <> mimeType
                          /\ btype blob <> "image/png")
                      /\ (if ok : bool then
                            exists pre,
                              ls = (pre ++ [ClipboardWrite (btype blob) blob true])%list
                              /\ written pre = None
                          else written ls = None)
                      /\ List.length ls
                         <= count_occ string_dec (type :: rest) (btype blob)).
    { intros E. exists ls, ok. rewrite E. split; [exact Es|].
      split; [exact Hall|]. split.
      - intros H. destruct (Hne H) as (H1 & H2 & H3).
        split; [right; exact H1|split; assumption].
      - split; [exact Hok|]. simpl.
        destruct (string_dec type (btype blob)); lia. }
    destruct ((type =? mimeType) || (type =? "image/png"))%bool eqn:E1;
      [apply Hkeep; cbn [sweep]; rewrite E1; reflexivity|].
    destruct (type =? btype blob) eqn:E2;
      [|apply Hkeep; cbn [sweep]; rewrite E1, E2; reflexivity].
    clear Hkeep. cbn [sweep]. rewrite E1, E2. cbn [negb].
    apply orb_false_iff in E1. destruct E1 as [N1 N2].
    apply String.eqb_neq in N1, N2. apply String.eqb_eq in E2. subst type.
    unfold attempt, write, bind, catch, ret, act.
    destruct (clipboardWrite P (btype blob) blob) as [e|].
    + rewrite Es. exists (ClipboardWrite (btype blob) blob false :: ls), ok.
      split; [reflexivity|].
      split; [constructor; [eexists; reflexivity|exact Hall]|].
      split; [intros _; split; [left; reflexivity|split; assumption]|].
      split.
      * destruct ok; [|exact Hok].
        destruct Hok as (pre & -> & Hpre).
        exists (ClipboardWrite (btype blob) blob false :: pre).
        split; [reflexivity|exact Hpre].
      * simpl. destruct (string_dec (btype blob) (btype blob)) as [_|N];
          [lia|contradiction N; reflexivity].
    + exists [ClipboardWrite (btype blob) blob true], true.
      split; [reflexivity|].
      split; [constructor; [eexists; reflexivity|constructor]|].
      split; [intros _; split; [left; reflexivity|split; assumption]|].
      split; [exists []; split; reflexivity|].
      simpl. destruct (string_dec (btype blob) (btype blob)) as [_|N];
        [lia|contradiction N; reflexivity].
Qed.

(** X20. The last loop of [writeToClipboardWithFallback] never converts and
    never throws.  Whatever it writes is the blob it was given, under the
    blob's own type, and it writes only when that type is listed, differs
    from the requested type and is not image/png.  It reports success
    exactly when its last write was accepted. *)
Theorem sweep_only_reoffers_the_blob (types : list string) :
  (forall a, In a (fst (sweep P blob mimeType types)) ->
             exists acc, a = ClipboardWrite (btype blob) blob acc)
  /\ (fst (sweep P blob mimeType types) <> [] ->
      In (btype blob) types /\ btype blob <> mimeType
      /\ btype blob <> "image/png")
  /\ (snd (sweep P blob mimeType types) = Done true
      \/ snd (sweep P blob mimeType types) = Done false)
  /\ (snd (sweep P blob mimeType types) = Done true
      <-> written (fst (sweep P blob mimeType types)) = Some (btype blob)).
Proof.
  destruct (sweep_shape types) as (ls & ok & -> & Hall & Hne & Hok & _).
  simpl. split; [rewrite Forall_forall in Hall; exact Hall|].
  split; [exact Hne|].
  split; [destruct ok; [left|right]; reflexivity|].
  destruct ok.
  - destruct Hok as (pre & -> & Hpre). split; [intros _|reflexivity].
    clear Hall Hne. induction pre as [|a pre IH]; [reflexivity|].
    simpl in *. destruct a as [| |m b [|]]; try discriminate Hpre; auto.
  - rewrite Hok. split; intros H; discriminate H.
Qed.

Lemma attempts_of_writes (ls : list Action) :
  Forall (fun a => exists acc, a = ClipboardWrite (btype blob) blob acc) ls ->
  List.length (attempts ls) = List.length ls.
Proof.
  induction 1 as [|a ls [acc ->] _ IH]; simpl; [reflexivity|].
  rewrite IH. reflexivity.
Qed.

Lemma supportedTypes_once (x : string) :
  count_occ string_dec supportedTypes x <= 1.
Proof.
  apply (proj1 (NoDup_count_occ string_dec supportedTypes)).
  repeat constructor; simpl; intuition discriminate.
Qed.

(** X21. For any blob and any requested type, the first action of
    [writeToClipboardWithFallback] is the write of that blob under the
    requested type; at most three writes are attempted in all.  When it
    returns, its last action is an accepted write and no earlier one was
    accepted.  When it throws, no write was accepted and the error is the
    aggregate one: the errors of the single writes and of the conversion
    never reach the caller. *)
Theorem chain_outcome :
  hd_error (fst (writeToClipboardWithFallback P blob mimeType))
  = Some (ClipboardWrite mimeType blob
            (match clipboardWrite P mimeType blob with
             | None => true | Some _ => false end))
  /\ List.length (attempts (fst (writeToClipboardWithFallback P blob mimeType)))
     <= 3
  /\ match snd (writeToClipboardWithFallback P blob mimeType) with
     | Done _ =>
         exists pre m b,
           fst (writeToClipboardWithFallback P blob mimeType)
           = (pre ++ [ClipboardWrite m b true])%list
           /\ written pre = None
     | Thrown e =>
         e = allFailed
         /\ written (fst (writeToClipboardWithFallback P blob mimeType)) = None
     end.
Proof.
  destruct (sweep_shape supportedTypes)
    as (ls & ok & Es & Hall & _ & Hok & Hlen).
  pose proof (attempts_of_writes ls Hall) as Hat.
  pose proof (supportedTypes_once (btype blob)) as H1.
  unfold writeToClipboardWithFallback. rewrite Es.
  unfold attempt, write, convertImageToPNG, bind, catch, ret, act, throw.
  destruct (clipboardWrite P mimeType blob) as [e|]; simpl.
  2:{ split; [reflexivity|]. split; [lia|]. exists [], mimeType, blob.
      split; reflexivity. }
  assert (Hend : forall pre : list Action,
             written pre = None ->
             List.length (attempts pre) <= 2 ->
             List.length (attempts (pre ++ ls)) <= 3
             /\ (if ok : bool then
                   exists pre' m b,
                     (pre ++ ls = pre' ++ [ClipboardWrite m b true])%list
                     /\ written pre' = None
                 else written (pre ++ ls) = None)).
  { intros pre Hw Hl.
    assert (Ha : forall a b : list Action,
               attempts (a ++ b) = (attempts a ++ attempts b)%list).
    { intros a b. induction a as [|x a IH]; simpl; [reflexivity|].
      destruct x; simpl; rewrite IH; reflexivity. }
    assert (Hwr : forall a b : list Action,
               written a = None -> written (a ++ b) = written b).
    { intros a b. induction a as [|x a IH]; simpl; [reflexivity|].
      destruct x as [| |m b0 [|]]; try discriminate; exact IH. }
    split; [rewrite Ha, length_app; lia|].
    destruct ok.
    - destruct Hok as (p0 & -> & Hp0).
      exists (pre ++ p0)%list, (btype blob), blob.
      split; [apply app_assoc|]. rewrite (Hwr pre p0 Hw). exact Hp0.
    - rewrite (Hwr pre ls Hw). exact Hok. }
  destruct (negb (mimeType =? "image/png")).
  - destruct (imageLoads P blob).
    + destruct (canvasToPNG P blob) as [png|].
      * destruct (clipboardWrite P "image/png" _) as [e2|].
        -- destruct (Hend [ClipboardWrite mimeType blob false;
                           ConvertToPNG blob;
                           ClipboardWrite "image/png"
                             {| btype := "image/png"; bpayload := png |} false]
                          eq_refl ltac:(simpl; lia)) as [L R].
           destruct ok; simpl in L, R |- *; rewrite ?app_nil_r;
             (split; [reflexivity|]); (split; [exact L|]);
             [exact R|split; [reflexivity|exact R]].
        -- simpl. split; [reflexivity|]. split; [lia|].
           exists [ClipboardWrite mimeType blob false; ConvertToPNG blob],
                  "image/png", {| btype := "image/png"; bpayload := png |}.
           split; reflexivity.
      * destruct (Hend [ClipboardWrite mimeType blob false; ConvertToPNG blob]
                       eq_refl ltac:(simpl; lia)) as [L R].
        destruct ok; simpl in L, R |- *; rewrite ?app_nil_r;
             (split; [reflexivity|]); (split; [exact L|]);
             [exact R|split; [reflexivity|exact R]].
    + destruct (Hend [ClipboardWrite mimeType blob false; ConvertToPNG blob]
                     eq_refl ltac:(simpl; lia)) as [L R].
      destruct ok; simpl in L, R |- *; rewrite ?app_nil_r;
             (split; [reflexivity|]); (split; [exact L|]);
             [exact R|split; [reflexivity|exact R]].
  - destruct (Hend [ClipboardWrite mimeType blob false]
                   eq_refl ltac:(simpl; lia)) as [L R].
    destruct ok; simpl in L, R |- *; rewrite ?app_nil_r;
             (split; [reflexivity|]); (split; [exact L|]);
             [exact R|split; [reflexivity|exact R]].
Qed.

End AnyChain.

(** *** How an export fails *)

(** X22. Once the source has been fetched, a failed export ends with one of
    three messages and no accepted write.  If any write was attempted, the
    message is the one about browser support, whatever the clipboard
    threw: a permission denial is never reported as such.  Otherwise the
    source is a JPEG whose up-front conversion failed. *)
Theorem copy_failure_messages
        (P : Platform) (src imageType : string) (blob : Blob)
        (l : list Action) (msg : string) :
  clipboardAvailable P = true ->
  fetchBlob P src = inr blob ->
  copyImageAsFile P src imageType = (l, CopyFailed msg) ->
  written l = None
  /\ ((attempts l <> [] /\ msg = msgNoSupport)
      \/ (attempts l = [] /\ isJPEG blob = true
          /\ ((imageLoads P blob = true /\ canvasToPNG P blob = None
               /\ msg = msgConversionFailed)
              \/ (imageLoads P blob = false /\ msg = msgCopyFailed)))).
Proof.
  intros Ha Hf. destruct (isJPEG blob) eqn:Hj.
  - rewrite (ClipboardFacts.copy_jpeg P src imageType blob Ha Hf Hj).
    destruct (imageLoads P blob) eqn:Hl.
    + destruct (canvasToPNG P blob) as [png|] eqn:Hc.
      * cbv zeta. rewrite ClipboardFacts.fallback_equation. cbn [btype].
        destruct (clipboardWrite P "image/png" _); simpl; [|discriminate].
        intros H. injection H as <- <-.
        split; [reflexivity|]. left. split; [discriminate|reflexivity].
      * intros H. injection H as <- <-.
        split; [reflexivity|]. right. repeat split. left.
        repeat split.
    + intros H. injection H as <- <-.
      split; [reflexivity|]. right. repeat split. right. repeat split.
  - rewrite (ClipboardFacts.copy_other P src imageType blob Ha Hf Hj).
    rewrite ClipboardFacts.fallback_equation.
    destruct (clipboardWrite P (btype blob) blob); [|discriminate].
    destruct (btype blob =? "image/png").
    { simpl. intros H. injection H as <- <-.
      split; [reflexivity|]. left. split; [discriminate|reflexivity]. }
    destruct (imageLoads P blob).
    + destruct (canvasToPNG P blob) as [png|].
      * cbv zeta. destruct (clipboardWrite P "image/png" _); simpl;
          [|discriminate].
        intros H. injection H as <- <-.
        split; [reflexivity|]. left. split; [discriminate|reflexivity].
      * simpl. intros H. injection H as <- <-.
        split; [reflexivity|]. left. split; [discriminate|reflexivity].
    + simpl. intros H. injection H as <- <-.
      split; [reflexivity|]. left. split; [discriminate|reflexivity].
Qed.

Lemma copy_failure_messages_witness :
  copyImageAsFile denied webpSrc "processed"
  = (fst (copyImageAsFile denied webpSrc "processed"), CopyFailed msgNoSupport)
  /\ written (fst (copyImageAsFile denied webpSrc "processed")) = None.
Proof.
  split; [reflexivity|].
  exact (proj1 (copy_failure_messages denied webpSrc "processed"
                  {| btype := "image/webp"; bpayload := "V0VC" |}
                  (fst (copyImageAsFile denied webpSrc "processed"))
                  msgNoSupport eq_refl eq_refl eq_refl)).
Defined.

(** The file name a successful export reports, at the sample inputs. *)
Lemma reported_name_fixed_before_writing_witness :
  exists l filename,
    copyImageAsFile pngOnly webpSrc "original" = (l, CopiedAs filename)
    /\ filename = fileName pngOnly "original" "image/webp"
    /\ written l = Some "image/png".
Proof.
  exists (fst (copyImageAsFile pngOnly webpSrc "original")),
         (fileName pngOnly "original" "image/webp").
  split; [reflexivity|].
  destruct (ClipboardFacts.reported_name_fixed_before_writing
              pngOnly webpSrc "original"
              {| btype := "image/webp"; bpayload := "V0VC" |}
              (fst (copyImageAsFile pngOnly webpSrc "original"))
              (fileName pngOnly "original" "image/webp")
              eq_refl eq_refl eq_refl) as [H1 _].
  split; [exact H1|reflexivity].
Defined.

(** *** The copy buttons *)

Lemma data_urls_step (s s' : Session.State) (e : Session.Event) :
  ((forall d, Session.currentImageData s = Some d ->
              JS.startsWith d "data:" = true)
   /\ (forall u, Session.processedImageBase64 s = Some u ->
                 JS.startsWith u "data:" = true)) ->
  Session.step s e = Some s' ->
  (forall d, Session.currentImageData s' = Some d ->
             JS.startsWith d "data:" = true)
  /\ (forall u, Session.processedImageBase64 s' = Some u ->
                JS.startsWith u "data:" = true).
Proof.
  intros [H1 H2] Hs.
  destruct (isInput e) eqn:Hi.
  { destruct (SessionInvariants.inputOnly_step s s' e Hi Hs)
      as (E1 & _ & E3 & _).
    rewrite E1, E3. split; assumption. }
  destruct e; try discriminate Hi; simpl in Hs.
  - destruct (nth_error _ _) as [file|]; [|discriminate].
    injection Hs as <-. split; [|exact H2].
    intros d Hd. simpl in Hd. injection Hd as <-.
    exact (PageFacts.startsWith_app "data:" _).
  - destruct (Session.outstanding _ _); [|discriminate].
    injection Hs as <-. split; assumption.
  - destruct (Session.outstanding _ _); [|discriminate].
    injection Hs as <-. split; assumption.
  - destruct (nth_error _ _) as [data|]; [|discriminate].
    injection Hs as <-. split; [exact H1|].
    intros u Hu. simpl in Hu. injection Hu as <-.
    exact (PageFacts.startsWith_app "data:" _).
  - destruct (Session.pendingReveal s); [discriminate|].
    injection Hs as <-. split; assumption.
  - destruct (Session.pendingSuccessMsg s); [discriminate|].
    injection Hs as <-. split; assumption.
  - injection Hs as <-. split; intros x Hx; discriminate Hx.
Qed.

Lemma startsWith_truthy (d : string) :
  JS.startsWith d "data:" = true -> JS.truthy d = true.
Proof. destruct d; [discriminate|reflexivity]. Qed.

(** X23. In every reachable state the copy buttons are refused exactly when
    there is nothing to copy, and otherwise export exactly the stored
    original, and the stored result data URL, which are always data URLs:
    the "other URL" branch of [copyImageAsFile] is never taken from them. *)
Theorem copy_buttons_pass_stored_data_urls
        (P : Platform) (s : Session.State) :
  Session.reachable s ->
  match Session.currentImageData s with
  | Some d =>
      JS.startsWith d "data:" = true
      /\ copyOriginalImageAsFile P s = Some (copyImageAsFile P d "original")
  | None => copyOriginalImageAsFile P s = None
  end
  /\ match Session.processedImageBase64 s with
     | Some u =>
         JS.startsWith u "data:" = true
         /\ copyCurrentImageAsFile P s
            = Some (copyImageAsFile P u "processed")
     | None => copyCurrentImageAsFile P s = None
     end.
Proof.
  intros Hr.
  assert (H : (forall d, Session.currentImageData s = Some d ->
                         JS.startsWith d "data:" = true)
              /\ (forall u, Session.processedImageBase64 s = Some u ->
                            JS.startsWith u "data:" = true)).
  { induction Hr as [|s e s' _ IH Hs];
      [split; intros x Hx; discriminate Hx|].
    exact (data_urls_step s s' e IH Hs). }
  destruct H as [H1 H2].
  unfold copyOriginalImageAsFile, copyCurrentImageAsFile. split.
  - destruct (Session.currentImageData s) as [d|]; [|reflexivity].
    pose proof (H1 d eq_refl) as Hd.
    rewrite (startsWith_truthy d Hd). split; [exact Hd|reflexivity].
  - destruct (Session.processedImageBase64 s) as [u|]; [|reflexivity].
    pose proof (H2 u eq_refl) as Hu.
    rewrite (startsWith_truthy u Hu). split; [exact Hu|reflexivity].
Qed.

Lemma copy_buttons_pass_stored_data_urls_witness :
  copyOriginalImageAsFile pngOnly (Session.after processingA)
  = Some (copyImageAsFile pngOnly (fileDataURL fileA) "original")
  /\ copyCurrentImageAsFile pngOnly (Session.after processingA) = None.
Proof.
  pose proof (copy_buttons_pass_stored_data_urls pngOnly
                (Session.after processingA)
                (SessionFacts.after_reachable processingA)) as [H1 H2].
  split; [exact (proj2 H1)|exact H2].
Defined.

End ClipboardMore.
